(** * apns2: the HTTP/2 session, the signing token and the send pipeline

    A shallow embedding of [lib/http2-client.ts] and [lib/apns.ts].
    JavaScript values are a small inductive type, objects are association
    lists in insertion order, a thrown exception or a rejected promise is
    the [Throw] completion, and every call that leaves the class
    ([jwt.sign], [emit], the pool, the HTTP/2 session) is recorded in an
    effect log kept in the client state, so that the order of the calls
    can be stated. *)

From Stdlib Require Import String List Bool ZArith QArith Qround Lia DecimalString.
Import ListNotations.

Set Warnings "-register-all".

Local Open Scope string_scope.
Local Open Scope list_scope.

(** ** JavaScript values *)

(** The expiration of a notification is tested with [instanceof Date]:
    either a [Date], read through [getTime()] (milliseconds), or a number. *)
Inductive Expiration : Type :=
| ExpDate (getTime : Z)
| ExpNumber (seconds : Q).

(** Modelled from the spec: [lib/notifications/notification.ts] is not part
    of the sources at hand.  Section 6 lists what a notification exposes to
    the core: device identifier, push type, priority, topic, a
    JSON-serializable payload body, an optional expiration and an optional
    collapse id.  [payloadJSON] stands for
    [JSON.stringify(notification.APNSOptions())]. *)
Record Notification : Type := mkNotification {
  deviceToken : string;
  pushType : string;
  priority : Z;
  topic : option string;
  expiration : option Expiration;
  collapseId : option string;
  payloadJSON : string
}.

(** Numbers are rationals: the only arithmetic of the sources is a division
    of an integer number of milliseconds by 1000. *)
Inductive value : Type :=
| VUndefined
| VNull
| VBool (b : bool)
| VNum (q : Q)
| VStr (s : string)
| VArray (items : list value) (props : list (string * value))
| VObject (props : list (string * value))
| VNotification (n : Notification)   (* a reference to a notification *)
| VError (message : string).         (* an [Error] instance *)

Definition Props : Type := list (string * value).

(** [ToBoolean]. *)
Definition truthy (v : value) : bool :=
  match v with
  | VUndefined | VNull => false
  | VBool b => b
  | VNum q => negb (Qeq_bool q 0)
  | VStr s => negb (s =? "")
  | VArray _ _ | VObject _ | VNotification _ | VError _ => true
  end.

(** [v === n] for a number literal [n]: no conversion takes place. *)
Definition strict_equals_number (v : value) (n : Q) : bool :=
  match v with
  | VNum q => Qeq_bool q n
  | _ => false
  end.

Definition is_whole (q : Q) : bool := Qeq_bool (inject_Z (Qfloor q)) q.

Fixpoint get_prop (key : string) (ps : Props) : value :=
  match ps with
  | [] => VUndefined
  | (k, v) :: rest => if k =? key then v else get_prop key rest
  end.

Fixpoint has_prop (key : string) (ps : Props) : bool :=
  match ps with
  | [] => false
  | (k, _) :: rest => (k =? key) || has_prop key rest
  end.

(** [obj[key] = v] on own properties: an existing key keeps its place. *)
Fixpoint set_prop (key : string) (v : value) (ps : Props) : Props :=
  match ps with
  | [] => [(key, v)]
  | (k, w) :: rest =>
      if k =? key then (k, v) :: rest else (k, w) :: set_prop key v rest
  end.

(** The outcome of a call: a value, or a thrown value (a rejection, for an
    [async] function). *)
Inductive Completion (A : Type) : Type :=
| Return (a : A)
| Throw (e : value).
Arguments Return {A} a.
Arguments Throw {A} e.

(** [json.key = v] in a module (strict mode): [null] and primitives raise a
    [TypeError], objects and arrays take the property. *)
Definition assign_prop (target : value) (key : string) (v : value)
  : Completion value :=
  match target with
  | VObject ps => Return (VObject (set_prop key v ps))
  | VArray items ps => Return (VArray items (set_prop key v ps))
  | _ => Throw (VError "TypeError")
  end.

(** [target.key] on a value that is not [null] or [undefined]. *)
Definition read_prop (target : value) (key : string) : value :=
  match target with
  | VObject ps | VArray _ ps => get_prop key ps
  | _ => VUndefined
  end.

(** ** What the sources import *)

(** The catalogue of reason constants, [lib/errors.ts], is imported by
    [apns.ts]; its values are a parameter of the development.  These are
    the four entries the core uses. *)
Record ErrorCatalogue : Type := mkErrors {
  error : string;
  unknownError : string;
  invalidSigningKey : string;
  expiredProviderToken : string
}.

Record JwtClaims : Type := mkClaims { iss : string; iat : Q }.
Record JwtHeader : Type := mkJwtHeader { alg : string; kid : string }.
Record SignOptions : Type := mkSignOptions {
  algorithm : string;
  header : JwtHeader
}.

(** The library functions the two classes call.  [None] is a thrown
    exception. *)
Class Runtime : Type := {
  Errors : ErrorCatalogue;
  jwt_sign : JwtClaims -> string -> SignOptions -> option string;
  JSON_parse : string -> option value;
  encodeURIComponent : string -> string;
  URL_href : string -> Z -> string
}.

(** ** lib/http2-client.ts *)

(** An [http2.ClientHttp2Session] is an object of the Node runtime that the
    client only refers to: it is named by an identifier, and what the
    runtime knows about it sits in [Sessions]. *)
Definition SessionId : Type := nat.

Record Sessions : Type := mkSessions {
  destroyed : SessionId -> bool;   (* [session.destroyed] *)
  teardown : SessionId -> bool     (* the handlers of [_connected] are on it *)
}.

Definition mark (s : SessionId) (f : SessionId -> bool) : SessionId -> bool :=
  fun x => if Nat.eqb x s then true else f x.

Record HTTPClientOptions : Type := mkOptions {
  method : option string;
  path : string;
  headers : option Props
}.

Record ServerResponse : Type := mkResponse {
  statusCode : value;
  res_headers : Props;
  body : string
}.

Record HTTP2Client : Type := mkClient {
  _url : string;
  _timeout : Z;
  _ready : bool;
  _session : option SessionId
}.

(** The terminal events [_connected] listens to. *)
Inductive SessionEvent : Type :=
| close | frameError | goaway | socketError | timeout.

(** How the stream opened by [request] ends: ['end'] after a ['response']
    and its ['data'] chunks, ['error'], or ['timeout']. *)
Inductive Stream : Type :=
| StreamEnd (response_headers : Props) (chunks : list string)
| StreamError (err : value)
| StreamTimeout.

(** What [request] asks of the session: [session.request(headers)], and the
    body written to the stream, if any. *)
Record StreamRequest : Type := mkStreamRequest {
  on_session : SessionId;
  sent_headers : Props;
  written : option string
}.

Definition HTTP2_HEADER_METHOD : string := ":method".
Definition HTTP2_HEADER_PATH : string := ":path".
Definition HTTP2_HEADER_STATUS : string := ":status".

Section Http2Client.
Context {RT : Runtime}.

Definition HTTP2Client_new (host : string) (port : option Z)
    (timeout_opt : option Z) : Completion HTTP2Client :=
  if host =? "" then Throw (VError "host is required")
  else
    let port := match port with Some p => p | None => 443%Z end in
    let timeout := match timeout_opt with Some t => t | None => 5000%Z end in
    Return {| _url := URL_href host port;
              _timeout := timeout;
              _ready := false;
              _session := None |}.

(** [get ready()]: [this._ready && this._session && !this._session.destroyed]. *)
Definition ready (c : HTTP2Client) (w : Sessions) : value :=
  if _ready c then
    match _session c with
    | Some s => VBool (negb (destroyed w s))
    | None => VUndefined
    end
  else VBool false.

Definition destroy (c : HTTP2Client) (w : Sessions) : HTTP2Client * Sessions :=
  let w' :=
    match _session c with
    | Some s =>
        if negb (destroyed w s)
        then {| destroyed := mark s (destroyed w); teardown := teardown w |}
        else w
    | None => w
    end in
  ({| _url := _url c; _timeout := _timeout c;
      _ready := false; _session := None |}, w').

Definition _connected (c : HTTP2Client) (w : Sessions) (session : SessionId)
  : HTTP2Client * Sessions :=
  ({| _url := _url c; _timeout := _timeout c;
      _ready := true; _session := Some session |},
   {| destroyed := destroyed w; teardown := mark session (teardown w) |}).

(** [connect()]: the new session reports ['connect'], or an error first. *)
Definition connect (c : HTTP2Client) (w : Sessions)
    (outcome : Completion SessionId)
  : HTTP2Client * Sessions * Completion HTTP2Client :=
  match outcome with
  | Return session =>
      let '(c', w') := _connected c w session in (c', w', Return c')
  | Throw e => (c, w, Throw e)
  end.

(** A terminal event of session [s] runs the handler of [_connected], if
    this client installed it there. *)
Definition session_event (c : HTTP2Client) (w : Sessions) (s : SessionId)
    (e : SessionEvent) : HTTP2Client * Sessions :=
  if teardown w s then destroy c w else (c, w).

(** The runtime tears session [s] down by itself. *)
Definition session_dies (w : Sessions) (s : SessionId) : Sessions :=
  {| destroyed := mark s (destroyed w); teardown := teardown w |}.

Definition status_of (response_headers : Props) : value :=
  let headerStatus := get_prop HTTP2_HEADER_STATUS response_headers in
  match headerStatus with
  | VArray items _ => nth 0 items VUndefined
  | _ => if truthy headerStatus then headerStatus else VStr "400"
  end.

Definition request (c : HTTP2Client) (options : HTTPClientOptions)
    (body : option string) (stream : Stream)
  : list StreamRequest * Completion ServerResponse :=
  match method options with
  | None => ([], Throw (VError "method is required"))
  | Some m =>
      if m =? "" then ([], Throw (VError "method is required"))
      else if path options =? "" then ([], Throw (VError "path is required"))
      else
        match _session c with
        | None =>
            ([], Throw (VError "Must call connect() before making a request"))
        | Some s =>
            let headers :=
              match headers options with Some h => h | None => [] end in
            let headers := set_prop HTTP2_HEADER_METHOD (VStr m) headers in
            let headers :=
              set_prop HTTP2_HEADER_PATH (VStr (path options)) headers in
            let written :=
              match body with
              | Some b => if b =? "" then None else Some b
              | None => None
              end in
            ([{| on_session := s; sent_headers := headers;
                 written := written |}],
             match stream with
             | StreamEnd response_headers chunks =>
                 Return {| statusCode := status_of response_headers;
                           res_headers := response_headers;
                           body := String.concat "" chunks |}
             | StreamError err => Throw err
             | StreamTimeout =>
                 Throw (VError ("http2: timeout connecting to " ++ _url c))
             end)
        end
  end.

Definition post (c : HTTP2Client) (options : HTTPClientOptions)
    (body : option string) (stream : Stream)
  : list StreamRequest * Completion ServerResponse :=
  request c {| method := Some "POST"; path := path options;
               headers := headers options |} body stream.

(** The operations that change a client or its session. *)
Inductive Op : Type :=
| OpConnected (session : SessionId)
| OpDestroy
| OpSessionEvent (s : SessionId) (e : SessionEvent)
| OpSessionDies (s : SessionId).

Definition run_op (o : Op) (st : HTTP2Client * Sessions)
  : HTTP2Client * Sessions :=
  let '(c, w) := st in
  match o with
  | OpConnected session => _connected c w session
  | OpDestroy => destroy c w
  | OpSessionEvent s e => session_event c w s e
  | OpSessionDies s => (c, session_dies w s)
  end.

Definition run_ops (os : list Op) (st : HTTP2Client * Sessions)
  : HTTP2Client * Sessions :=
  fold_left (fun st o => run_op o st) os st.

End Http2Client.

(** ** lib/apns.ts *)

Definition API_VERSION : string := "3".
Definition MAX_CONNECTIONS : Z := 10.
Definition HOST : string := "api.push.apple.com".
Definition PORT : Z := 443.
Definition SIGNING_ALGORITHM : string := "ES256".
Definition RESET_TOKEN_INTERVAL : Z := 55 * 60 * 1000.

(** The calls that leave the class, in the order they are made. *)
Inductive Effect : Type :=
| JwtSign (claims : JwtClaims) (key : string) (options : SignOptions)
| Emit (name : value) (args : list value)
| PoolAcquire
| PoolRelease (client : HTTP2Client)
| SessionRequest (r : StreamRequest).

(** The fields of the class, with the clock [Date.now()] reads (in
    milliseconds) and the effect log. *)
Record APNS : Type := mkAPNS {
  _token : option string;
  _team : string;
  _keyId : string;
  _signingKey : string;
  _defaultTopic : option string;
  now : Z;
  log : list Effect
}.


(** [type Response]: the success record, or [{ error }]. *)
Inductive Response : Type :=
| Sent (notification : Notification) (device : string)
| Failed (err : value).

(** What the pool and the gateway answer to one send: the outcome of
    [acquire().promise] and the end of the request stream. *)
Record Exchange : Type := mkExchange {
  acquired : Completion HTTP2Client;
  stream : Stream
}.

Definition with_token (a : APNS) (t : option string) : APNS :=
  {| _token := t; _team := _team a; _keyId := _keyId a;
     _signingKey := _signingKey a; _defaultTopic := _defaultTopic a;
     now := now a; log := log a |}.

Definition record (a : APNS) (es : list Effect) : APNS :=
  {| _token := _token a; _team := _team a; _keyId := _keyId a;
     _signingKey := _signingKey a; _defaultTopic := _defaultTopic a;
     now := now a; log := log a ++ es |}.

(** The clock moves on. *)
Definition at_time (a : APNS) (t : Z) : APNS :=
  {| _token := _token a; _team := _team a; _keyId := _keyId a;
     _signingKey := _signingKey a; _defaultTopic := _defaultTopic a;
     now := t; log := log a |}.

Definition nonempty (o : option string) : option string :=
  match o with
  | Some s => if s =? "" then None else Some s
  | None => None
  end.

(** The events of a log, in order. *)
Fixpoint emitted (es : list Effect) : list (value * list value) :=
  match es with
  | [] => []
  | Emit name args :: rest => (name, args) :: emitted rest
  | _ :: rest => emitted rest
  end.

Fixpoint signings (es : list Effect) : list JwtClaims :=
  match es with
  | [] => []
  | JwtSign claims _ _ :: rest => claims :: signings rest
  | _ :: rest => signings rest
  end.

Definition Promise_all {A : Type} (ps : list (Completion A))
  : Completion (list A) :=
  fold_right
    (fun p acc =>
       match p, acc with
       | Return a, Return l => Return (a :: l)
       | Throw e, _ => Throw e
       | Return _, Throw e => Throw e
       end)
    (Return []) ps.

(** The claims and the options [_getSigningToken] hands to [jwt.sign]:
    [{ iss: team, iat: Date.now() / 1000 }] and
    [{ algorithm, header: { alg, kid } }]. *)
Definition signing_claims (team : string) (clock : Z) : JwtClaims :=
  {| iss := team; iat := inject_Z clock / 1000 |}.

Definition signing_options (keyId : string) : SignOptions :=
  {| algorithm := SIGNING_ALGORITHM;
     header := {| alg := SIGNING_ALGORITHM; kid := keyId |} |}.

(** ** The pool of [_createClientPool] *)

(** The options [_createClientPool] hands to [new Pool]: the three
    callbacks and the two bounds. *)
Record ClientPool : Type := mkPool {
  pool_create :
    Sessions -> Completion SessionId -> Sessions * Completion HTTP2Client;
  pool_validate : HTTP2Client -> Sessions -> value;
  pool_destroy : HTTP2Client -> Sessions -> HTTP2Client * Sessions;
  pool_min : Z;
  pool_max : Z
}.

(** [a || b]. *)
Definition or_else (a b : value) : value := if truthy a then a else b.

Section ClientPool.
Context {RT : Runtime}.

Definition _createClientPool (host : string) (port : Z) (connections : Z)
  : ClientPool :=
  {| pool_create := fun w outcome =>
       match HTTP2Client_new host (Some port) None with
       | Throw e => (w, Throw e)
       | Return c => let '(_, w', r) := connect c w outcome in (w', r)
       end;
     pool_validate := fun client w => or_else (ready client w) (VBool false);
     pool_destroy := fun client w => destroy client w;
     pool_min := 0;
     pool_max := connections |}.

End ClientPool.


Section Apns.
Context {RT : Runtime}.



(** [_getSigningToken].  The constructor installs no listener under
    [Errors.invalidSigningKey], an entry of the catalogue other than
    [Errors.expiredProviderToken], so emitting it is recorded and
    nothing else runs. *)
Definition _getSigningToken (a : APNS) : APNS * option string :=
  match nonempty (_token a) with
  | Some t => (a, Some t)
  | None =>
      let claims := signing_claims (_team a) (now a) in
      let key := _signingKey a in
      let options := signing_options (_keyId a) in
      match jwt_sign claims key options with
      | Some token =>
          (with_token (record a [JwtSign claims key options]) (Some token),
           Some token)
      | None =>
          (with_token
             (record a [JwtSign claims key options;
                        Emit (VStr (invalidSigningKey Errors)) []])
             None,
           None)
      end
  end.

Definition _resetSigningToken (a : APNS) : APNS * option string :=
  _getSigningToken (with_token a None).

(** [this.emit(name, ...args)]: the event is observed, then the listener
    the constructor registered with
    [this.on(Errors.expiredProviderToken, ...)] runs if the name is that
    one.  Listeners of callers are not part of the class, and neither is
    the rule of Node for the one event named ['error'], whose [emit]
    throws when nobody listens: the properties of failures are stated
    for names other than that one. *)
Definition emit (a : APNS) (name : value) (args : list value) : APNS :=
  let a := record a [Emit name args] in
  match name with
  | VStr s =>
      if s =? expiredProviderToken Errors
      then fst (_resetSigningToken a)
      else a
  | _ => a
  end.

(** The timer of the constructor fires. *)
Definition interval_fires (a : APNS) : APNS := fst (_resetSigningToken a).

Definition _handleServerResponse (a : APNS) (res : ServerResponse)
    (device : string) (notification : Notification)
  : APNS * Completion Response :=
  if strict_equals_number (statusCode res) 200 then
    (a, Return (Sent notification device))
  else
    let json :=
      match JSON_parse (body res) with
      | Some v => v
      | None => VObject [("reason", VStr (unknownError Errors))]
      end in
    match assign_prop json "statusCode" (statusCode res) with
    | Throw e => (a, Throw e)
    | Return json =>
        match assign_prop json "notification" (VNotification notification) with
        | Throw e => (a, Throw e)
        | Return json =>
            let a := emit a (read_prop json "reason") [json] in
            let a := emit a (VStr (error Errors)) [json] in
            (a, Throw json)
        end
    end.

(** The value of the [apns-expiration] header, when one is set. *)
Definition expiration_header (e : option Expiration) : option value :=
  match e with
  | Some (ExpDate ms) => Some (VNum (inject_Z ms / 1000))
  | Some (ExpNumber q) => if Qeq_bool q 0 then None else Some (VNum q)
  | None => None
  end.

(** [_sendOne] up to its first [await]: the request options are built and
    [this._acquireClient()] is called. *)
Definition _sendOne_start (a : APNS) (device : string)
    (notification : Notification) : APNS * HTTPClientOptions :=
  let '(a, token) := _getSigningToken a in
  let bearer := match token with Some t => t | None => "null" end in
  let apns_topic :=
    match nonempty (topic notification), _defaultTopic a with
    | Some t, _ => VStr t
    | None, Some d => VStr d
    | None, None => VNull
    end in
  let headers :=
    [("authorization", VStr ("bearer " ++ bearer));
     ("apns-push-type", VStr (pushType notification));
     ("apns-priority", VNum (inject_Z (priority notification)));
     ("apns-topic", apns_topic)] in
  let headers :=
    match expiration_header (expiration notification) with
    | Some v => set_prop "apns-expiration" v headers
    | None => headers
    end in
  let headers :=
    match nonempty (collapseId notification) with
    | Some c => set_prop "apns-collapse-id" (VStr c) headers
    | None => headers
    end in
  (record a [PoolAcquire],
   {| method := None;
      path := "/" ++ API_VERSION ++ "/device/" ++ encodeURIComponent device;
      headers := Some headers |}).

(** [_sendOne] from the first [await] on. *)
Definition _sendOne_resume (a : APNS) (options : HTTPClientOptions)
    (device : string) (notification : Notification) (x : Exchange)
  : APNS * Completion Response :=
  match acquired x with
  | Throw e => (a, Throw e)
  | Return client =>
      let a := record a [PoolRelease client] in
      let body := payloadJSON notification in
      let '(calls, res) := post client options (Some body) (stream x) in
      let a := record a (map SessionRequest calls) in
      match res with
      | Throw e => (a, Throw e)
      | Return res => _handleServerResponse a res device notification
      end
  end.

Definition _sendOne (a : APNS) (device : string)
    (notification : Notification) (x : Exchange)
  : APNS * Completion Response :=
  let '(a, options) := _sendOne_start a device notification in
  _sendOne_resume a options device notification x.

Definition send (a : APNS) (device : string) (notification : Notification)
    (x : Exchange) : APNS * Completion Response :=
  _sendOne a device notification x.

(** A member of a batch, once started. *)
Record Pending : Type := mkPending {
  pending_device : string;
  pending_notification : Notification;
  pending_options : HTTPClientOptions
}.

(** [targets.map(async ...)]: every callback runs up to its first
    [await] before any of them is resumed. *)
Fixpoint start_all (a : APNS) (targets : list (string * Notification))
  : APNS * list Pending :=
  match targets with
  | [] => (a, [])
  | (device, notification) :: rest =>
      let '(a, options) := _sendOne_start a device notification in
      let '(a, ps) := start_all a rest in
      (a, {| pending_device := device;
             pending_notification := notification;
             pending_options := options |} :: ps)
  end.

(** [try { return await this._sendOne(...) } catch (error) { return { error } }] *)
Definition captured (r : Completion Response) : Completion Response :=
  match r with
  | Return response => Return response
  | Throw e => Return (Failed e)
  end.

(** [_sendOne] between its two [await]s: the client acquired is released
    and the request is issued. *)
Definition _sendOne_issue (a : APNS) (options : HTTPClientOptions)
    (notification : Notification) (x : Exchange)
  : APNS * Completion ServerResponse :=
  match acquired x with
  | Throw e => (a, Throw e)
  | Return client =>
      let a := record a [PoolRelease client] in
      let body := payloadJSON notification in
      let '(calls, res) := post client options (Some body) (stream x) in
      (record a (map SessionRequest calls), res)
  end.

(** [_sendOne] after its second [await]. *)
Definition _sendOne_classify (a : APNS) (res : Completion ServerResponse)
    (device : string) (notification : Notification)
  : APNS * Completion Response :=
  match res with
  | Throw e => (a, Throw e)
  | Return res => _handleServerResponse a res device notification
  end.

(** A member whose request is out, with what its stream will end in. *)
Definition Issued : Type := (Pending * Completion ServerResponse)%type.

Fixpoint issue_all (a : APNS) (ps : list Pending) (i : nat)
    (gateway : nat -> Exchange) : APNS * list Issued :=
  match ps with
  | [] => (a, [])
  | p :: rest =>
      let '(a, r) :=
        _sendOne_issue a (pending_options p) (pending_notification p)
          (gateway i) in
      let '(a, rs) := issue_all a rest (S i) gateway in
      (a, (p, r) :: rs)
  end.

Fixpoint classify_all (a : APNS) (issued : list Issued)
  : APNS * list (Completion Response) :=
  match issued with
  | [] => (a, [])
  | (p, r) :: rest =>
      let '(a, c) :=
        _sendOne_classify a r (pending_device p) (pending_notification p) in
      let '(a, cs) := classify_all a rest in
      (a, captured c :: cs)
  end.

(** The members are resumed in the order of the list, member [i] meeting
    [gateway i]: each releases its client and issues its request as its
    acquisition resolves, and the answers are handled once the requests
    are out.  The members share the token and the log only. *)
Definition settle_all (a : APNS) (ps : list Pending) (i : nat)
    (gateway : nat -> Exchange) : APNS * list (Completion Response) :=
  let '(a, issued) := issue_all a ps i gateway in
  classify_all a issued.

Definition send_batch (a : APNS) (targets : list (string * Notification))
    (gateway : nat -> Exchange) : APNS * Completion (list Response) :=
  let '(a, ps) := start_all a targets in
  let '(a, rs) := settle_all a ps 0 gateway in
  (a, Promise_all rs).

Definition sendMany (a : APNS) (notifications : list Notification)
    (gateway : nat -> Exchange) : APNS * Completion (list Response) :=
  send_batch a (map (fun n => (deviceToken n, n)) notifications) gateway.

Definition sendToMany (a : APNS) (deviceTokens : list string)
    (notification : Notification) (gateway : nat -> Exchange)
  : APNS * Completion (list Response) :=
  send_batch a (map (fun d => (d, notification)) deviceTokens) gateway.

End Apns.

(** ** Reading a log *)

Definition is_acquire (e : Effect) : bool :=
  match e with PoolAcquire => true | _ => false end.
Definition is_release (e : Effect) : bool :=
  match e with PoolRelease _ => true | _ => false end.
Definition is_request (e : Effect) : bool :=
  match e with SessionRequest _ => true | _ => false end.
Definition is_transport (e : Effect) : bool :=
  is_acquire e || is_release e || is_request e.

(** Some effect satisfying [p] comes strictly before one satisfying [q]. *)
Fixpoint before (p q : Effect -> bool) (es : list Effect) : bool :=
  match es with
  | [] => false
  | e :: rest => (p e && existsb q rest) || before p q rest
  end.

(** A stretch of log without any call to the pool or to a session. *)
Definition quiet (es : list Effect) : bool :=
  forallb (fun e => negb (is_transport e)) es.

(** What a send on its own gives for one target, as a batch reports it. *)
Definition lone_result {RT : Runtime} (a : APNS) (device : string)
    (notification : Notification) (x : Exchange) : Response :=
  match snd (_sendOne a device notification x) with
  | Return response => response
  | Throw e => Failed e
  end.

Definition indexed {A : Type} (l : list A) : list (nat * A) :=
  combine (seq 0 (length l)) l.

(** ** A runtime to run the definitions on *)

Module Sample.

Local Open Scope string_scope.

Definition quote : string := String (Ascii.ascii_of_nat 34) EmptyString.

(** The body [{"reason":"<r>"}]. *)
Definition reason_body (r : string) : string :=
  "{" ++ quote ++ "reason" ++ quote ++ ":" ++ quote ++ r ++ quote ++ "}".

(** Reads bodies of the shape of [reason_body] and rejects the rest. *)
Definition parse (s : string) : option value :=
  let opening := "{" ++ quote ++ "reason" ++ quote ++ ":" ++ quote in
  let closing := quote ++ "}" in
  let n := String.length s in
  let o := String.length opening in
  let c := String.length closing in
  if (o + c <=? n)%nat
     && (substring 0 o s =? opening)
     && (substring (n - c) c s =? closing)
  then Some (VObject [("reason", VStr (substring o (n - o - c) s))])
  else None.

(** A signer that refuses the key ["broken"]; the token spells out what
    was signed. *)
Definition sign (claims : JwtClaims) (key : string) (options : SignOptions)
  : option string :=
  if key =? "broken" then None
  else Some (kid (header options) ++ "." ++ iss claims ++ "."
             ++ NilZero.string_of_int (Z.to_int (Qfloor (iat claims)))).

Definition catalogue : ErrorCatalogue :=
  {| error := "Error";
     unknownError := "UnknownError";
     invalidSigningKey := "InvalidSigningKey";
     expiredProviderToken := "ExpiredProviderToken" |}.

Definition runtime : Runtime :=
  {| Errors := catalogue;
     jwt_sign := sign;
     JSON_parse := parse;
     encodeURIComponent := fun s => s;
     URL_href := fun host port => "https://" ++ host ++ "/" |}.

Definition client (key : string) : APNS :=
  {| _token := None; _team := "T1"; _keyId := "K1"; _signingKey := key;
     _defaultTopic := Some "com.example.app"; now := 1700000000000;
     log := [] |}.

Definition hello (e : option Expiration) : Notification :=
  {| deviceToken := "abc123"; pushType := "alert"; priority := 10;
     topic := None; expiration := e; collapseId := None;
     payloadJSON := "{}" |}.

Definition connected : HTTP2Client :=
  {| _url := "https://api.push.apple.com/"; _timeout := 5000;
     _ready := true; _session := Some 7%nat |}.

Definition answer (status : value) (text : string) : Exchange :=
  {| acquired := Return connected;
     stream := StreamEnd [(HTTP2_HEADER_STATUS, status)] [text] |}.

Definition reply (status : value) (text : string) : ServerResponse :=
  {| statusCode := status;
     res_headers := [(HTTP2_HEADER_STATUS, status)];
     body := text |}.

Definition fresh_sessions : Sessions :=
  {| destroyed := fun _ => false; teardown := fun _ => false |}.

(** The request [_sendOne] issues for [hello e] with the token [bearer],
    but for the expiration header. *)
Definition posted (bearer : string) (extra : Props) : StreamRequest :=
  {| on_session := 7%nat;
     sent_headers :=
       ([("authorization", VStr ("bearer " ++ bearer));
        ("apns-push-type", VStr "alert");
        ("apns-priority", VNum 10);
        ("apns-topic", VStr "com.example.app")]
       ++ extra
       ++ [(HTTP2_HEADER_METHOD, VStr "POST");
           (HTTP2_HEADER_PATH, VStr "/3/device/abc123")])%list;
     written := Some "{}" |}.

(** The failure object for a body [{"reason":"<r>"}]. *)
Definition failure (r : string) (status : value) (n : Notification) : value :=
  VObject [("reason", VStr r); ("statusCode", status);
           ("notification", VNotification n)].

End Sample.

(** ** The other methods of lib/http2-client.ts *)

Definition get (c : HTTP2Client) (options : HTTPClientOptions)
    (stream : Stream) : list StreamRequest * Completion ServerResponse :=
  request c {| method := Some "GET"; path := path options;
               headers := headers options |} None stream.

Definition put (c : HTTP2Client) (options : HTTPClientOptions)
    (body : option string) (stream : Stream)
  : list StreamRequest * Completion ServerResponse :=
  request c {| method := Some "PUT"; path := path options;
               headers := headers options |} body stream.

Definition delete (c : HTTP2Client) (options : HTTPClientOptions)
    (stream : Stream) : list StreamRequest * Completion ServerResponse :=
  request c {| method := Some "DELETE"; path := path options;
               headers := headers options |} None stream.

(** ** lib/notifications/basic-notification.ts and silent-notification.ts *)

(** [NotificationOptions] is declared in [lib/types], which is not at
    hand.  These are the fields the two constructors read or write; an
    alert is a string or an object, and [other] holds the fields they do
    not name. *)
Inductive Alert : Type :=
| NoAlert
| AlertText (text : string)
| AlertFields (fields : Props).

Module Options.
Record t : Type := mk {
  alert : Alert;
  contentAvailable : value;
  pushType : value;
  priority : value;
  badge : value;
  topic : value;
  expiration : value;
  data : value;
  other : Props
}.
End Options.

(** The two entries of [constants/push-type] and [constants/priority] that
    [SilentNotification] falls back to; their values are parameters. *)
Class NotificationConstants : Type := {
  pushType_background : value;
  priority_throttled : value
}.

(** What the constructor of [BasicNotification] hands to [super]; it is
    the object the caller passed, updated in place. *)
Definition BasicNotification_options (message : string) (options : Options.t)
  : Options.t :=
  let merged :=
    match Options.alert options with
    | AlertText text => AlertText text
    | AlertFields fields => AlertFields (set_prop "body" (VStr message) fields)
    | NoAlert => AlertFields [("body", VStr message)]
    end in
  {| Options.alert := merged;
     Options.contentAvailable := Options.contentAvailable options;
     Options.pushType := Options.pushType options;
     Options.priority := Options.priority options;
     Options.badge := Options.badge options;
     Options.topic := Options.topic options;
     Options.expiration := Options.expiration options;
     Options.data := Options.data options;
     Options.other := Options.other options |}.

(** What the constructor of [SilentNotification] hands to [super]: a new
    object with the seven fields it names. *)
Definition SilentNotification_options {K : NotificationConstants}
    (options : Options.t) : Options.t :=
  {| Options.alert := NoAlert;
     Options.contentAvailable := VBool true;
     Options.pushType := or_else (Options.pushType options) pushType_background;
     Options.priority := or_else (Options.priority options) priority_throttled;
     Options.badge := Options.badge options;
     Options.topic := Options.topic options;
     Options.expiration := Options.expiration options;
     Options.data := Options.data options;
     Options.other := [] |}.

(** ** Reading a client *)

(** Two states of a client with the same credentials, default topic and
    clock. *)
Definition same_config (a b : APNS) : Prop :=
  _team a = _team b /\ _keyId a = _keyId b /\ _signingKey a = _signingKey b
  /\ _defaultTopic a = _defaultTopic b /\ now a = now b.

(** The credential a request is sent with: the template
    [`bearer ${token}`]. *)
Definition bearer (token : option string) : string :=
  "bearer " ++ match token with Some t => t | None => "null" end.

(** ** More to run the definitions on *)

Module Fixture.

Local Open Scope string_scope.

Definition offline : HTTP2Client :=
  {| _url := "https://api.push.apple.com/"; _timeout := 5000;
     _ready := false; _session := None |}.

Definition plain (p : string) (hs : Props) : HTTPClientOptions :=
  {| method := None; path := p; headers := Some hs |}.

Definition refused : Exchange :=
  {| acquired := Throw (VError "pool timeout"); stream := StreamTimeout |}.

Definition broken_stream (err : value) : Exchange :=
  {| acquired := Return Sample.connected; stream := StreamError err |}.

Definition stale : Exchange :=
  {| acquired := Return offline; stream := StreamEnd [] [] |}.

Definition constants : NotificationConstants :=
  {| pushType_background := VStr "background";
     priority_throttled := VNum 5 |}.

Definition bare (a : Alert) : Options.t :=
  {| Options.alert := a;
     Options.contentAvailable := VUndefined;
     Options.pushType := VUndefined;
     Options.priority := VUndefined;
     Options.badge := VNum 3;
     Options.topic := VUndefined;
     Options.expiration := VUndefined;
     Options.data := VUndefined;
     Options.other := [("sound", VStr "default")] |}.

End Fixture.

(** * Properties *)

Section ObjectProperties.

Lemma get_prop_set_prop_same (key : string) (v : value) (ps : Props) :
  get_prop key (set_prop key v ps) = v.
Proof.
  induction ps as [|[k w] rest IH]; simpl.
  - now rewrite String.eqb_refl.
  - destruct (k =? key) eqn:E; simpl; rewrite E; auto.
Qed.

Lemma get_prop_set_prop_other (key key' : string) (v : value) (ps : Props) :
  key <> key' ->
  get_prop key (set_prop key' v ps) = get_prop key ps.
Proof.
  intros Hne.
  assert ((key' =? key) = false) as Hk by (apply String.eqb_neq; congruence).
  induction ps as [|[k w] rest IH]; simpl.
  - now rewrite Hk.
  - destruct (k =? key') eqn:E; simpl.
    + apply String.eqb_eq in E; subst k. now rewrite Hk.
    + destruct (k =? key); auto.
Qed.

Lemma strict_equals_number_string (s : string) (n : Q) :
  strict_equals_number (VStr s) n = false.
Proof. reflexivity. Qed.

Lemma assign_prop_object (ps : Props) (key : string) (v : value) :
  assign_prop (VObject ps) key v = Return (VObject (set_prop key v ps)).
Proof. reflexivity. Qed.

End ObjectProperties.

Section ResponseClassification.
Context {RT : Runtime}.

(** Whatever is not classified as a success is thrown. *)
Lemma handleServerResponse_throws (a : APNS) (res : ServerResponse)
    (device : string) (n : Notification) :
  strict_equals_number (statusCode res) 200 = false ->
  exists e, snd (_handleServerResponse a res device n) = Throw e.
Proof.
  intros Hs. unfold _handleServerResponse. rewrite Hs.
  destruct (assign_prop _ "statusCode" _) as [j1|e1]; [|simpl; eauto].
  destruct (assign_prop j1 "notification" _) as [j2|e2]; simpl; eauto.
Qed.

(** [request] hands the [:status] header over untouched when it is a
    number other than 0. *)
Lemma status_of_number (hs : Props) (q : Q) :
  get_prop HTTP2_HEADER_STATUS hs = VNum q ->
  Qeq_bool q 0 = false ->
  status_of hs = VNum q.
Proof.
  intros Hh Hq. unfold status_of. rewrite Hh. simpl. now rewrite Hq.
Qed.

(** C1. A response whose status is the number 200 is classified as the
    success record made of the very notification and device identifier
    that were passed in, and nothing else happens: no event, no change of
    the client.  The comparison is [===] with the number: a status that
    is a string, ["200"] included, is never a success. *)
Theorem handleServerResponse_200 (a : APNS) (res : ServerResponse)
    (device : string) (n : Notification) :
  statusCode res = VNum 200 ->
  _handleServerResponse a res device n = (a, Return (Sent n device))
  /\ forall (s : string) (r : Response),
       snd (_handleServerResponse a
              {| statusCode := VStr s; res_headers := res_headers res;
                 body := body res |} device n) <> Return r.
Proof.
  intros Hs. split.
  - unfold _handleServerResponse. now rewrite Hs.
  - intros s r.
    destruct (handleServerResponse_throws a
                {| statusCode := VStr s; res_headers := res_headers res;
                   body := body res |} device n) as [e He];
      [reflexivity|].
    rewrite He. discriminate.
Qed.

(** C10. A stream that ends with response headers holding no [:status]
    makes [request] resolve with the string ['400'] as status code, and
    [_handleServerResponse] throws on that response: it is never a
    success. *)
Theorem request_without_status (c : HTTP2Client) (o : HTTPClientOptions)
    (b : option string) (m : string) (s : SessionId)
    (hs : Props) (chunks : list string) :
  method o = Some m -> m <> "" -> path o <> "" -> _session c = Some s ->
  get_prop HTTP2_HEADER_STATUS hs = VUndefined ->
  let res := {| statusCode := VStr "400"; res_headers := hs;
                body := String.concat "" chunks |} in
  snd (request c o b (StreamEnd hs chunks)) = Return res
  /\ forall (a : APNS) (device : string) (n : Notification),
       (exists e, snd (_handleServerResponse a res device n) = Throw e)
       /\ forall r, snd (_handleServerResponse a res device n) <> Return r.
Proof.
  intros Hm Hne Hp Hsess Hst res. split.
  - unfold request. rewrite Hm.
    apply String.eqb_neq in Hne, Hp. rewrite Hne, Hp, Hsess. simpl.
    unfold status_of. rewrite Hst. reflexivity.
  - intros a device n.
    destruct (handleServerResponse_throws a res device n) as [e He];
      [reflexivity|].
    split; [eauto|]. intros r. rewrite He. discriminate.
Qed.

(** C5. When the status is not 200 and [JSON.parse] throws on the body,
    the failure thrown is the object made of the reason
    [Errors.unknownError], the status code of the response and the
    notification. *)
Theorem handleServerResponse_unparsable (a : APNS) (res : ServerResponse)
    (device : string) (n : Notification) :
  strict_equals_number (statusCode res) 200 = false ->
  JSON_parse (body res) = None ->
  let json := VObject [("reason", VStr (unknownError Errors));
                       ("statusCode", statusCode res);
                       ("notification", VNotification n)] in
  snd (_handleServerResponse a res device n) = Throw json
  /\ read_prop json "reason" = VStr (unknownError Errors)
  /\ read_prop json "statusCode" = statusCode res
  /\ read_prop json "notification" = VNotification n.
Proof.
  intros Hs Hp json. unfold _handleServerResponse.
  rewrite Hs, Hp. simpl. auto.
Qed.

End ResponseClassification.

Lemma handleServerResponse_200_witness :
  statusCode (Sample.reply (VNum 200) "") = VNum 200
  /\ _handleServerResponse (RT := Sample.runtime) (Sample.client "key")
       (Sample.reply (VNum 200) "") "abc123" (Sample.hello None)
     = (Sample.client "key", Return (Sent (Sample.hello None) "abc123")).
Proof.
  split; [reflexivity|].
  refine (proj1 (handleServerResponse_200 (RT := Sample.runtime)
                   (Sample.client "key") (Sample.reply (VNum 200) "")
                   "abc123" (Sample.hello None) _)).
  reflexivity.
Defined.

Lemma request_without_status_witness :
  get_prop HTTP2_HEADER_STATUS [] = VUndefined
  /\ snd (request Sample.connected
            {| method := Some "POST"; path := "/3/device/abc123";
               headers := None |} None (StreamEnd [] ["oops"]))
     = Return {| statusCode := VStr "400"; res_headers := [];
                 body := "oops" |}.
Proof.
  split; [reflexivity|].
  refine (proj1 (request_without_status (RT := Sample.runtime)
                   Sample.connected
                   {| method := Some "POST"; path := "/3/device/abc123";
                      headers := None |} None "POST" 7%nat [] ["oops"]
                   _ _ _ _ _));
    first [reflexivity | discriminate].
Defined.

Lemma handleServerResponse_unparsable_witness :
  JSON_parse (Runtime := Sample.runtime) "<html>" = None
  /\ snd (_handleServerResponse (RT := Sample.runtime) (Sample.client "key")
            (Sample.reply (VNum 500) "<html>") "abc123" (Sample.hello None))
     = Throw (VObject [("reason", VStr "UnknownError");
                       ("statusCode", VNum 500);
                       ("notification", VNotification (Sample.hello None))]).
Proof.
  split; [reflexivity|].
  refine (proj1 (handleServerResponse_unparsable (RT := Sample.runtime)
                   (Sample.client "key") (Sample.reply (VNum 500) "<html>")
                   "abc123" (Sample.hello None) _ _));
    reflexivity.
Defined.

Section TokenManager.
Context {RT : Runtime}.

Lemma emitted_app (l1 l2 : list Effect) :
  emitted (l1 ++ l2) = emitted l1 ++ emitted l2.
Proof.
  induction l1 as [|e l1 IH]; simpl; [reflexivity|].
  destruct e; simpl; now rewrite IH.
Qed.

Lemma signings_app (l1 l2 : list Effect) :
  signings (l1 ++ l2) = signings l1 ++ signings l2.
Proof.
  induction l1 as [|e l1 IH]; simpl; [reflexivity|].
  destruct e; simpl; now rewrite IH.
Qed.

Lemma nonempty_some (t : string) : t <> "" -> nonempty (Some t) = Some t.
Proof.
  intros Hne. simpl. apply String.eqb_neq in Hne. now rewrite Hne.
Qed.

(** C6. [_getSigningToken] returns a cached token as it is, and then
    nothing is signed and the client is unchanged.  Without one it calls
    [jwt.sign] once on the claims [{iss: team, iat}], the signing key and
    the ES256 options with the key id; the token signed is returned and
    cached.  When [jwt.sign] throws, the call still returns: the result is
    [null], no token is cached, and [Errors.invalidSigningKey] is emitted
    right after the failed signing. *)
Theorem getSigningToken_cached_or_signed (a : APNS) :
  let claims := {| iss := _team a; iat := inject_Z (now a) / 1000 |} in
  let key := _signingKey a in
  let options :=
    {| algorithm := "ES256";
       header := {| alg := "ES256"; kid := _keyId a |} |} in
  (forall t, _token a = Some t -> t <> "" ->
     _getSigningToken a = (a, Some t))
  /\ (forall t, nonempty (_token a) = None ->
        jwt_sign claims key options = Some t ->
        snd (_getSigningToken a) = Some t
        /\ _token (fst (_getSigningToken a)) = Some t
        /\ log (fst (_getSigningToken a))
           = log a ++ [JwtSign claims key options])
  /\ (nonempty (_token a) = None ->
      jwt_sign claims key options = None ->
      snd (_getSigningToken a) = None
      /\ _token (fst (_getSigningToken a)) = None
      /\ log (fst (_getSigningToken a))
         = log a ++ [JwtSign claims key options;
                     Emit (VStr (invalidSigningKey Errors)) []]).
Proof.
  intros claims key options. unfold _getSigningToken.
  change (signing_claims (_team a) (now a)) with claims.
  change (signing_options (_keyId a)) with options.
  fold key.
  split; [|split].
  - intros t Ht Hne. rewrite Ht, (nonempty_some t Hne). reflexivity.
  - intros t Hc Hs. rewrite Hc, Hs. repeat split.
  - intros Hc Hs. rewrite Hc, Hs. repeat split.
Qed.

Lemma resetSigningToken_result (a : APNS) :
  let claims := signing_claims (_team a) (now a) in
  let options := signing_options (_keyId a) in
  let resigned := jwt_sign claims (_signingKey a) options in
  snd (_resetSigningToken a) = resigned
  /\ _token (fst (_resetSigningToken a)) = resigned
  /\ now (fst (_resetSigningToken a)) = now a
  /\ _team (fst (_resetSigningToken a)) = _team a
  /\ _keyId (fst (_resetSigningToken a)) = _keyId a
  /\ _signingKey (fst (_resetSigningToken a)) = _signingKey a
  /\ log (fst (_resetSigningToken a))
     = log a ++ JwtSign claims (_signingKey a) options
          :: match resigned with
             | Some _ => []
             | None => [Emit (VStr (invalidSigningKey Errors)) []]
             end.
Proof.
  intros claims options resigned. unfold _resetSigningToken, _getSigningToken.
  simpl. fold claims options resigned.
  destruct resigned; simpl; repeat split; reflexivity.
Qed.

(** C7. When [Errors.expiredProviderToken] is emitted, the listener of the
    constructor drops the cached token and signs again at once: the event
    is followed in the log by a call of [jwt.sign] with the time of the
    event, whose result replaces the cached token.  The next
    [_getSigningToken], at any later time, returns that token, or, when
    that signing gave nothing, the result of a signing of its own.  The
    token cached before the event plays no part in any of this. *)
Theorem expiredProviderToken_discards_token (a : APNS) (args : list value)
    (later : Z) :
  let claims_at t := {| iss := _team a; iat := inject_Z t / 1000 |} in
  let options :=
    {| algorithm := "ES256";
       header := {| alg := "ES256"; kid := _keyId a |} |} in
  let resigned := jwt_sign (claims_at (now a)) (_signingKey a) options in
  let fired := emit a (VStr (expiredProviderToken Errors)) args in
  _token fired = resigned
  /\ log fired
     = log a ++ Emit (VStr (expiredProviderToken Errors)) args
          :: JwtSign (claims_at (now a)) (_signingKey a) options
          :: match resigned with
             | Some _ => []
             | None => [Emit (VStr (invalidSigningKey Errors)) []]
             end
  /\ snd (_getSigningToken (at_time fired later))
     = match nonempty resigned with
       | Some t => Some t
       | None => jwt_sign (claims_at later) (_signingKey a) options
       end
  /\ forall stale : option string,
       emit (with_token a stale) (VStr (expiredProviderToken Errors)) args
       = fired.
Proof.
  intros claims_at options resigned fired.
  assert (Hfired : fired
                   = fst (_resetSigningToken
                            (record a [Emit (VStr (expiredProviderToken Errors))
                                         args]))).
  { unfold fired, emit. now rewrite String.eqb_refl. }
  destruct (resetSigningToken_result
              (record a [Emit (VStr (expiredProviderToken Errors)) args]))
    as (_ & Htok & Hnow & Hteam & Hkid & Hkey & Hlog).
  rewrite <- Hfired in Htok, Hnow, Hteam, Hkid, Hkey, Hlog.
  simpl in Htok, Hnow, Hteam, Hkid, Hkey, Hlog.
  change (signing_claims (_team a) (now a)) with (claims_at (now a))
    in Htok, Hlog.
  change (signing_options (_keyId a)) with options in Htok, Hlog.
  fold resigned in Htok, Hlog.
  split; [exact Htok|]. split; [|split].
  - rewrite Hlog. rewrite <- app_assoc. reflexivity.
  - unfold _getSigningToken. simpl. rewrite Htok.
    destruct (nonempty resigned) as [t|]; [reflexivity|].
    rewrite Hteam, Hkid, Hkey.
    change (signing_claims (_team a) later) with (claims_at later).
    change (signing_options (_keyId a)) with options.
    destruct (jwt_sign (claims_at later) (_signingKey a) options);
      reflexivity.
  - intros stale. rewrite Hfired. unfold emit.
    rewrite String.eqb_refl. reflexivity.
Qed.

(** [_getSigningToken] records [Errors.invalidSigningKey] without running
    a listener: that is what [emit] does for it, the two entries of the
    catalogue being different. *)
Lemma emit_invalidSigningKey (a : APNS) (args : list value) :
  invalidSigningKey Errors <> expiredProviderToken Errors ->
  emit a (VStr (invalidSigningKey Errors)) args
  = record a [Emit (VStr (invalidSigningKey Errors)) args].
Proof.
  intros Hne. unfold emit. apply String.eqb_neq in Hne. now rewrite Hne.
Qed.

(** The timer of the constructor does what the event does. *)
Lemma interval_fires_resigns (a : APNS) :
  _token (interval_fires a)
  = jwt_sign (signing_claims (_team a) (now a)) (_signingKey a)
      (signing_options (_keyId a)).
Proof.
  unfold interval_fires.
  now destruct (resetSigningToken_result a) as (_ & Htok & _).
Qed.

End TokenManager.

Lemma getSigningToken_cached_or_signed_witness :
  _getSigningToken (RT := Sample.runtime)
    (with_token (Sample.client "key") (Some "cached"))
  = (with_token (Sample.client "key") (Some "cached"), Some "cached")
  /\ snd (_getSigningToken (RT := Sample.runtime) (Sample.client "key"))
     = Some "K1.T1.1700000000"
  /\ snd (_getSigningToken (RT := Sample.runtime) (Sample.client "broken"))
     = None.
Proof.
  destruct (getSigningToken_cached_or_signed (RT := Sample.runtime)
              (with_token (Sample.client "key") (Some "cached")))
    as (Hcached & _ & _).
  destruct (getSigningToken_cached_or_signed (RT := Sample.runtime)
              (Sample.client "key")) as (_ & Hsigned & _).
  destruct (getSigningToken_cached_or_signed (RT := Sample.runtime)
              (Sample.client "broken")) as (_ & _ & Hfailed).
  split; [|split].
  - apply Hcached; [reflexivity | discriminate].
  - apply (Hsigned "K1.T1.1700000000"); reflexivity.
  - apply Hfailed; reflexivity.
Defined.

Section FailureEvents.
Context {RT : Runtime}.

Lemma emit_events (a : APNS) (name : string) (args : list value) :
  emitted (log (emit a (VStr name) args))
  = emitted (log a) ++ (VStr name, args)
      :: (if name =? expiredProviderToken Errors
          then match jwt_sign {| iss := _team a;
                                 iat := inject_Z (now a) / 1000 |}
                       (_signingKey a)
                       {| algorithm := "ES256";
                          header := {| alg := "ES256"; kid := _keyId a |} |}
               with
               | Some _ => []
               | None => [(VStr (invalidSigningKey Errors), [])]
               end
          else []).
Proof.
  unfold emit. destruct (name =? expiredProviderToken Errors).
  - destruct (resetSigningToken_result (record a [Emit (VStr name) args]))
      as (_ & _ & _ & _ & _ & _ & Hlog).
    rewrite Hlog. cbn [record log _team _keyId _signingKey now].
    unfold signing_claims, signing_options, SIGNING_ALGORITHM.
    rewrite !emitted_app, <- app_assoc.
    destruct (jwt_sign _ _ _); reflexivity.
  - simpl. rewrite emitted_app. reflexivity.
Qed.

Lemma emit_keeps_config (a : APNS) (name : value) (args : list value) :
  _team (emit a name args) = _team a
  /\ _keyId (emit a name args) = _keyId a
  /\ _signingKey (emit a name args) = _signingKey a
  /\ now (emit a name args) = now a.
Proof.
  unfold emit. destruct name; try (repeat split; reflexivity).
  destruct (s =? expiredProviderToken Errors);
    [|repeat split; reflexivity].
  destruct (resetSigningToken_result (record a [Emit (VStr s) args]))
    as (_ & _ & Hnow & Hteam & Hkid & Hkey & _).
  rewrite Hnow, Hteam, Hkid, Hkey. repeat split; reflexivity.
Qed.

(** C4, amended. When the status is not 200 and the body parses to an
    object whose [reason] is a string, [_handleServerResponse] throws that
    object, completed with the status code of the response and the
    notification, and its reason is the one of the body.  Before that it
    emits the reason and then [Errors.error], both with the failure
    object.  These are the only events, but for one case: when the reason
    is [Errors.expiredProviderToken], the listener of the constructor signs
    again in between, and a signing that fails emits
    [Errors.invalidSigningKey] there.  The names emitted are taken to
    differ from ['error'], the one event name for which the [emit] of Node
    throws when nobody listens: with that name the failure object is not
    what is thrown. *)
Theorem handleServerResponse_failure (a : APNS) (res : ServerResponse)
    (device : string) (n : Notification) (fields : Props) (r : string) :
  strict_equals_number (statusCode res) 200 = false ->
  JSON_parse (body res) = Some (VObject fields) ->
  get_prop "reason" fields = VStr r ->
  error Errors <> expiredProviderToken Errors ->
  r <> "error" ->
  error Errors <> "error" ->
  invalidSigningKey Errors <> "error" ->
  let json :=
    VObject (set_prop "notification" (VNotification n)
               (set_prop "statusCode" (statusCode res) fields)) in
  let resign_fails :=
    match jwt_sign {| iss := _team a; iat := inject_Z (now a) / 1000 |}
            (_signingKey a)
            {| algorithm := "ES256";
               header := {| alg := "ES256"; kid := _keyId a |} |}
    with Some _ => false | None => true end in
  snd (_handleServerResponse a res device n) = Throw json
  /\ read_prop json "reason" = VStr r
  /\ read_prop json "statusCode" = statusCode res
  /\ read_prop json "notification" = VNotification n
  /\ emitted (log (fst (_handleServerResponse a res device n)))
     = emitted (log a)
       ++ (VStr r, [json])
       :: (if (r =? expiredProviderToken Errors) && resign_fails
           then [(VStr (invalidSigningKey Errors), [])] else [])
       ++ [(VStr (error Errors), [json])].
Proof.
  intros Hs Hp Hr Hd _ _ _ json resign_fails.
  assert (Hreason : read_prop json "reason" = VStr r).
  { simpl. rewrite !get_prop_set_prop_other by discriminate. exact Hr. }
  unfold _handleServerResponse. rewrite Hs, Hp.
  rewrite !assign_prop_object. fold json. cbn [fst snd].
  split; [reflexivity|]. split; [exact Hreason|]. split; [|split].
  - simpl. rewrite get_prop_set_prop_other by discriminate.
    apply get_prop_set_prop_same.
  - simpl. apply get_prop_set_prop_same.
  - rewrite Hreason. rewrite !emit_events.
    destruct (emit_keeps_config a (VStr r) [json])
      as (Hteam & Hkid & Hkey & Hnow).
    apply String.eqb_neq in Hd. rewrite Hd.
    rewrite <- app_assoc. f_equal. simpl. f_equal.
    unfold resign_fails.
    destruct (r =? expiredProviderToken Errors); [|reflexivity].
    destruct (jwt_sign _ _ _); reflexivity.
Qed.

End FailureEvents.

Lemma handleServerResponse_failure_witness :
  snd (_handleServerResponse (RT := Sample.runtime) (Sample.client "key")
         (Sample.reply (VNum 410) (Sample.reason_body "Unregistered"))
         "abc123" (Sample.hello None))
  = Throw (Sample.failure "Unregistered" (VNum 410) (Sample.hello None))
  /\ emitted
       (log (fst (_handleServerResponse (RT := Sample.runtime)
                    (Sample.client "key")
                    (Sample.reply (VNum 410)
                       (Sample.reason_body "Unregistered"))
                    "abc123" (Sample.hello None))))
     = [(VStr "Unregistered",
         [Sample.failure "Unregistered" (VNum 410) (Sample.hello None)]);
        (VStr "Error",
         [Sample.failure "Unregistered" (VNum 410) (Sample.hello None)])].
Proof.
  destruct (handleServerResponse_failure (RT := Sample.runtime)
              (Sample.client "key")
              (Sample.reply (VNum 410) (Sample.reason_body "Unregistered"))
              "abc123" (Sample.hello None)
              [("reason", VStr "Unregistered")] "Unregistered")
    as (Hthrow & _ & _ & _ & Hevents);
    [reflexivity | reflexivity | reflexivity | discriminate | discriminate
    | discriminate | discriminate |].
  split; [exact Hthrow | exact Hevents].
Defined.

(** C4 as stated fails: with a signing key [jwt.sign] refuses, a 403
    answer of reason [ExpiredProviderToken] makes the client emit three
    events before the failure is thrown, the second one without the
    failure object. *)
Lemma handleServerResponse_three_events :
  JSON_parse (Runtime := Sample.runtime)
    (Sample.reason_body "ExpiredProviderToken")
  = Some (VObject [("reason", VStr "ExpiredProviderToken")])
  /\ snd (_handleServerResponse (RT := Sample.runtime)
            (Sample.client "broken")
            (Sample.reply (VNum 403)
               (Sample.reason_body "ExpiredProviderToken"))
            "abc123" (Sample.hello None))
     = Throw (Sample.failure "ExpiredProviderToken" (VNum 403)
                (Sample.hello None))
  /\ emitted
       (log (fst (_handleServerResponse (RT := Sample.runtime)
                    (Sample.client "broken")
                    (Sample.reply (VNum 403)
                       (Sample.reason_body "ExpiredProviderToken"))
                    "abc123" (Sample.hello None))))
     = [(VStr "ExpiredProviderToken",
         [Sample.failure "ExpiredProviderToken" (VNum 403)
            (Sample.hello None)]);
        (VStr "InvalidSigningKey", []);
        (VStr "Error",
         [Sample.failure "ExpiredProviderToken" (VNum 403)
            (Sample.hello None)])]
  /\ emitted
       (log (fst (_handleServerResponse (RT := Sample.runtime)
                    (Sample.client "broken")
                    (Sample.reply (VNum 403)
                       (Sample.reason_body "ExpiredProviderToken"))
                    "abc123" (Sample.hello None))))
     <> emitted (log (Sample.client "broken"))
        ++ [(VStr "ExpiredProviderToken",
             [Sample.failure "ExpiredProviderToken" (VNum 403)
                (Sample.hello None)]);
            (VStr "Error",
             [Sample.failure "ExpiredProviderToken" (VNum 403)
                (Sample.hello None)])].
Proof.
  repeat split; try reflexivity.
  vm_compute. discriminate.
Qed.

Section Dispatch.
Context {RT : Runtime}.

Lemma getSigningToken_quiet (a : APNS) :
  exists es, log (fst (_getSigningToken a)) = log a ++ es /\ quiet es = true.
Proof.
  unfold _getSigningToken.
  destruct (nonempty (_token a)) as [t|].
  - exists []. simpl. now rewrite app_nil_r.
  - destruct (jwt_sign _ _ _); eexists; simpl; split; reflexivity.
Qed.

Lemma emit_quiet (a : APNS) (name : value) (args : list value) :
  exists es, log (emit a name args) = log a ++ es /\ quiet es = true.
Proof.
  assert (Hplain : exists es,
             log (record a [Emit name args]) = log a ++ es
             /\ quiet es = true)
    by (eexists; simpl; split; reflexivity).
  unfold emit. destruct name; try exact Hplain.
  destruct (s =? expiredProviderToken Errors); [|exact Hplain].
  unfold _resetSigningToken.
  destruct (getSigningToken_quiet
              (with_token (record a [Emit (VStr s) args]) None))
    as (es & Hes & Hq).
  rewrite Hes. simpl. exists (Emit (VStr s) args :: es).
  rewrite <- app_assoc. split; [reflexivity | exact Hq].
Qed.

Lemma handleServerResponse_quiet (a : APNS) (res : ServerResponse)
    (device : string) (n : Notification) :
  exists es,
    log (fst (_handleServerResponse a res device n)) = log a ++ es
    /\ quiet es = true.
Proof.
  assert (Hsame : exists es, log a = log a ++ es /\ quiet es = true)
    by (exists []; now rewrite app_nil_r).
  unfold _handleServerResponse.
  destruct (strict_equals_number _ _); [exact Hsame|].
  destruct (assign_prop _ "statusCode" _) as [j1|]; [|exact Hsame].
  destruct (assign_prop j1 "notification" _) as [j2|]; [|exact Hsame].
  cbn [fst].
  destruct (emit_quiet a (read_prop j2 "reason") [j2]) as (es1 & H1 & Hq1).
  destruct (emit_quiet (emit a (read_prop j2 "reason") [j2])
              (VStr (error Errors)) [j2]) as (es2 & H2 & Hq2).
  exists (es1 ++ es2). rewrite H2, H1, <- app_assoc. split; [reflexivity|].
  unfold quiet in *. rewrite forallb_app, Hq1, Hq2. reflexivity.
Qed.

(** C2, amended. When the pool hands out a client that holds a session,
    [_sendOne] calls the pool and the session exactly three times and in
    this order: [acquire], then [release] of the client just acquired,
    and only then the request on its session.  Around them there is
    nothing but signing and events. *)
Theorem sendOne_acquire_release_request (a : APNS) (device : string)
    (n : Notification) (x : Exchange) (client : HTTP2Client) (s : SessionId) :
  acquired x = Return client ->
  _session client = Some s ->
  exists (pre post : list Effect) (r : StreamRequest),
    log (fst (_sendOne a device n x))
    = log a ++ pre
        ++ [PoolAcquire; PoolRelease client; SessionRequest r] ++ post
    /\ on_session r = s
    /\ quiet pre = true /\ quiet post = true.
Proof.
  intros Hacq Hsess. unfold _sendOne, _sendOne_start.
  destruct (getSigningToken_quiet a) as (pre & Hpre & Hqpre).
  destruct (_getSigningToken a) as [a1 token]. cbn [fst] in Hpre.
  unfold _sendOne_resume. rewrite Hacq.
  unfold post, request. cbn [method path headers].
  change ("POST" =? "") with false. cbv iota.
  change (("/" ++ API_VERSION ++ "/device/" ++ encodeURIComponent device)
          =? "") with false.
  cbv iota. rewrite Hsess.
  match goal with
  | |- context [map SessionRequest [?req]] => set (r := req)
  end.
  assert (Hr : on_session r = s) by reflexivity. clearbody r.
  assert (Hlog : forall tail,
             (log (record (record (record a1 [PoolAcquire])
                             [PoolRelease client])
                     (map SessionRequest [r]))) ++ tail
             = log a ++ pre
                 ++ [PoolAcquire; PoolRelease client; SessionRequest r]
                 ++ tail).
  { intros tail. simpl. rewrite Hpre, <- !app_assoc. reflexivity. }
  destruct (stream x) as [hs chunks|err|].
  - match goal with
    | |- context [_handleServerResponse ?st ?res device n] =>
        destruct (handleServerResponse_quiet st res device n)
          as (post & Hpost & Hqpost)
    end.
    exists pre, post, r. rewrite Hpost, Hlog. auto.
  - exists pre, [], r. cbn [fst]. rewrite <- Hlog, app_nil_r. auto.
  - exists pre, [], r. cbn [fst]. rewrite <- Hlog, app_nil_r. auto.
Qed.

(** From the gateway to the caller: a stream that ends with the numeric
    status 200 makes the send return the success record. *)
Lemma sendOne_status_200 (a : APNS) (device : string) (n : Notification)
    (x : Exchange) (client : HTTP2Client) (s : SessionId)
    (hs : Props) (chunks : list string) :
  acquired x = Return client ->
  _session client = Some s ->
  stream x = StreamEnd hs chunks ->
  get_prop HTTP2_HEADER_STATUS hs = VNum 200 ->
  snd (_sendOne a device n x) = Return (Sent n device).
Proof.
  intros Hacq Hsess Hstream Hstatus. unfold _sendOne, _sendOne_start.
  destruct (_getSigningToken a) as [a1 token].
  unfold _sendOne_resume. rewrite Hacq.
  unfold post, request. cbn [method path headers].
  change ("POST" =? "") with false. cbv iota.
  change (("/" ++ API_VERSION ++ "/device/" ++ encodeURIComponent device)
          =? "") with false.
  cbv iota. rewrite Hsess, Hstream.
  rewrite (status_of_number hs 200 Hstatus eq_refl).
  reflexivity.
Qed.

End Dispatch.

Lemma sendOne_acquire_release_request_witness :
  exists (pre post : list Effect) (r : StreamRequest),
    log (fst (_sendOne (RT := Sample.runtime) (Sample.client "key") "abc123"
                (Sample.hello None) (Sample.answer (VNum 200) "")))
    = log (Sample.client "key") ++ pre
        ++ [PoolAcquire; PoolRelease Sample.connected; SessionRequest r]
        ++ post
    /\ on_session r = 7%nat
    /\ quiet pre = true /\ quiet post = true.
Proof.
  apply (sendOne_acquire_release_request (RT := Sample.runtime)
           (Sample.client "key") "abc123" (Sample.hello None)
           (Sample.answer (VNum 200) "") Sample.connected 7%nat);
    reflexivity.
Defined.

(** C2 as stated fails: in a plain successful send the client is released
    before the request is issued on its session, and no release follows
    the request. *)
Lemma sendOne_release_precedes_request :
  filter is_transport
    (log (fst (_sendOne (RT := Sample.runtime) (Sample.client "key") "abc123"
                 (Sample.hello None) (Sample.answer (VNum 200) ""))))
  = [PoolAcquire; PoolRelease Sample.connected;
     SessionRequest (Sample.posted "K1.T1.1700000000" [])]
  /\ before is_request is_release
       (log (fst (_sendOne (RT := Sample.runtime) (Sample.client "key")
                    "abc123" (Sample.hello None)
                    (Sample.answer (VNum 200) ""))))
     = false
  /\ before is_release is_request
       (log (fst (_sendOne (RT := Sample.runtime) (Sample.client "key")
                    "abc123" (Sample.hello None)
                    (Sample.answer (VNum 200) ""))))
     = true.
Proof. repeat split; reflexivity. Qed.

Section ExpirationHeader.
Context {RT : Runtime}.

Lemma is_whole_milliseconds (ms : Z) :
  is_whole (inject_Z ms / 1000) = true <-> (ms mod 1000 = 0)%Z.
Proof.
  unfold is_whole, Qeq_bool, Qfloor, Qdiv, Qmult, Qinv, inject_Z. simpl.
  rewrite Z.eqb_eq, !Z.mul_1_r. split; intros H.
  - rewrite Z.mod_eq by lia. lia.
  - rewrite Z.mod_eq in H by lia. lia.
Qed.

(** C8, amended. The [apns-expiration] header of the request [_sendOne]
    issues is set from the expiration of the notification: for a [Date] it
    is [getTime() / 1000], a number of seconds that is whole exactly when
    the date falls on a full second; a number other than 0 is sent as it
    is; with the number 0, or without an expiration, no such header is
    sent. *)
Theorem expiration_header_sent (a : APNS) (device : string)
    (n : Notification) (c : HTTP2Client) (b : option string) (st : Stream)
    (r : StreamRequest) :
  In r (fst (post c (snd (_sendOne_start a device n)) b st)) ->
  get_prop "apns-expiration" (sent_headers r)
  = match expiration n with
    | Some (ExpDate ms) => VNum (inject_Z ms / 1000)
    | Some (ExpNumber q) => if Qeq_bool q 0 then VUndefined else VNum q
    | None => VUndefined
    end
  /\ forall ms, expiration n = Some (ExpDate ms) ->
       (is_whole (inject_Z ms / 1000) = true <-> (ms mod 1000 = 0)%Z).
Proof.
  intros Hin. split; [|intros ms _; apply is_whole_milliseconds].
  revert Hin. unfold _sendOne_start.
  destruct (_getSigningToken a) as [a1 token]. cbn [snd].
  unfold post, request. cbn [method path headers].
  change ("POST" =? "") with false. cbv iota.
  change (("/" ++ API_VERSION ++ "/device/" ++ encodeURIComponent device)
          =? "") with false.
  cbv iota.
  destruct (_session c) as [s|]; [|intros []].
  cbn [fst]. intros [<-|[]]. cbn [sent_headers].
  rewrite !get_prop_set_prop_other by discriminate.
  destruct (nonempty (collapseId n));
    [rewrite get_prop_set_prop_other by discriminate|];
    (destruct (expiration n) as [[ms|q]|]; cbn [expiration_header];
     [ apply get_prop_set_prop_same
     | destruct (Qeq_bool q 0);
       [reflexivity | apply get_prop_set_prop_same]
     | reflexivity ]).
Qed.

End ExpirationHeader.

Lemma expiration_header_sent_witness :
  get_prop "apns-expiration"
    (sent_headers (Sample.posted "K1.T1.1700000000"
                     [("apns-expiration", VNum (inject_Z 1700003600000 / 1000))]))
  = VNum (inject_Z 1700003600000 / 1000)
  /\ is_whole (inject_Z 1700003600000 / 1000) = true.
Proof.
  destruct (expiration_header_sent (RT := Sample.runtime)
              (Sample.client "key") "abc123"
              (Sample.hello (Some (ExpDate 1700003600000)))
              Sample.connected (Some "{}") StreamTimeout
              (Sample.posted "K1.T1.1700000000"
                 [("apns-expiration",
                   VNum (inject_Z 1700003600000 / 1000))]))
    as (Hvalue & Hwhole).
  - left. reflexivity.
  - split; [exact Hvalue|].
    apply (Hwhole 1700003600000%Z); reflexivity.
Defined.

(** C8 as stated fails: a [Date] half a second past a full second is sent
    as a number of seconds that is not an integer. *)
Lemma expiration_header_fraction :
  fst (post Sample.connected
         (snd (_sendOne_start (RT := Sample.runtime) (Sample.client "key")
                 "abc123" (Sample.hello (Some (ExpDate 1700003600500)))))
         (Some "{}") StreamTimeout)
  = [Sample.posted "K1.T1.1700000000"
       [("apns-expiration", VNum (inject_Z 1700003600500 / 1000))]]
  /\ is_whole (inject_Z 1700003600500 / 1000) = false
  /\ Qeq_bool (inject_Z 1700003600500 / 1000) (3400007201 # 2) = true.
Proof. repeat split; reflexivity. Qed.

Section Batches.
Context {RT : Runtime}.

Lemma handleServerResponse_outcome (a a' : APNS) (res : ServerResponse)
    (device : string) (n : Notification) :
  snd (_handleServerResponse a res device n)
  = snd (_handleServerResponse a' res device n).
Proof.
  unfold _handleServerResponse.
  destruct (strict_equals_number _ _); [reflexivity|].
  destruct (assign_prop _ "statusCode" _) as [j1|]; [|reflexivity].
  destruct (assign_prop j1 "notification" _); reflexivity.
Qed.

Lemma sendOne_resume_outcome (a a' : APNS) (o o' : HTTPClientOptions)
    (device : string) (n : Notification) (x : Exchange) :
  path o <> "" -> path o' <> "" ->
  snd (_sendOne_resume a o device n x)
  = snd (_sendOne_resume a' o' device n x).
Proof.
  intros Ho Ho'. apply String.eqb_neq in Ho, Ho'.
  unfold _sendOne_resume.
  destruct (acquired x) as [client|e]; [|reflexivity].
  unfold post, request. cbn [method path headers].
  change ("POST" =? "") with false. cbv iota. rewrite Ho, Ho'.
  destruct (_session client); [|reflexivity].
  destruct (stream x); try reflexivity.
  apply handleServerResponse_outcome.
Qed.

Lemma sendOne_start_path (a : APNS) (device : string) (n : Notification) :
  path (snd (_sendOne_start a device n)) <> "".
Proof.
  unfold _sendOne_start. destruct (_getSigningToken a). discriminate.
Qed.

Lemma sendOne_outcome (a a' : APNS) (o : HTTPClientOptions)
    (device : string) (n : Notification) (x : Exchange) :
  path o <> "" ->
  snd (_sendOne_resume a o device n x) = snd (_sendOne a' device n x).
Proof.
  intros Ho. unfold _sendOne.
  pose proof (sendOne_start_path a' device n) as Hp.
  destruct (_sendOne_start a' device n) as [a1 o1].
  now apply sendOne_resume_outcome.
Qed.

Lemma sendOne_resume_split (a a' a'' : APNS) (o : HTTPClientOptions)
    (device : string) (n : Notification) (x : Exchange) :
  snd (_sendOne_resume a o device n x)
  = snd (_sendOne_classify a' (snd (_sendOne_issue a'' o n x)) device n).
Proof.
  unfold _sendOne_resume, _sendOne_issue, _sendOne_classify.
  destruct (acquired x) as [client|e]; [|reflexivity].
  destruct (post client o (Some (payloadJSON n)) (stream x)) as [calls res].
  cbn [snd]. destruct res as [res|e]; [|reflexivity].
  apply handleServerResponse_outcome.
Qed.

Lemma issue_all_results (a0 : APNS) (gateway : nat -> Exchange)
    (ps : list Pending) :
  forall (a : APNS) (i : nat),
    snd (issue_all a ps i gateway)
    = map (fun q => (snd q,
                     snd (_sendOne_issue a0 (pending_options (snd q))
                            (pending_notification (snd q))
                            (gateway (fst q)))))
        (combine (seq i (length ps)) ps).
Proof.
  induction ps as [|p rest IH]; intros a i; [reflexivity|].
  cbn [issue_all].
  assert (Hr : snd (_sendOne_issue a (pending_options p)
                      (pending_notification p) (gateway i))
               = snd (_sendOne_issue a0 (pending_options p)
                        (pending_notification p) (gateway i))).
  { unfold _sendOne_issue. destruct (acquired (gateway i)); [|reflexivity].
    now destruct (post _ _ _ _). }
  destruct (_sendOne_issue a (pending_options p) (pending_notification p)
              (gateway i)) as [a1 r].
  pose proof (IH a1 (S i)) as Hrs.
  destruct (issue_all a1 rest (S i) gateway) as [a2 rs].
  cbn [snd] in *. cbn [length seq combine map fst snd].
  now rewrite Hr, Hrs.
Qed.

Lemma classify_all_results (a0 : APNS) (issued : list Issued) :
  forall a : APNS,
    snd (classify_all a issued)
    = map (fun pr => captured
                       (snd (_sendOne_classify a0 (snd pr)
                               (pending_device (fst pr))
                               (pending_notification (fst pr)))))
        issued.
Proof.
  induction issued as [|[p r] rest IH]; intros a; [reflexivity|].
  cbn [classify_all].
  assert (Hc : snd (_sendOne_classify a r (pending_device p)
                      (pending_notification p))
               = snd (_sendOne_classify a0 r (pending_device p)
                        (pending_notification p))).
  { unfold _sendOne_classify. destruct r; [|reflexivity].
    apply handleServerResponse_outcome. }
  destruct (_sendOne_classify a r (pending_device p)
              (pending_notification p)) as [a1 c].
  pose proof (IH a1) as Hcs.
  destruct (classify_all a1 rest) as [a2 cs].
  cbn [snd] in *. cbn [map fst snd]. now rewrite Hc, Hcs.
Qed.

Lemma settle_all_members (a0 : APNS) (gateway : nat -> Exchange)
    (ps : list Pending) (a : APNS) (i : nat) :
  snd (settle_all a ps i gateway)
  = map (fun q => captured
                    (snd (_sendOne_resume a0 (pending_options (snd q))
                            (pending_device (snd q))
                            (pending_notification (snd q))
                            (gateway (fst q)))))
      (combine (seq i (length ps)) ps).
Proof.
  unfold settle_all.
  pose proof (issue_all_results a0 gateway ps a i) as Hissued.
  destruct (issue_all a ps i gateway) as [a1 issued]. cbn [snd] in Hissued.
  rewrite (classify_all_results a0 issued a1), Hissued, map_map.
  apply map_ext. intros [k p]. cbn [fst snd]. f_equal. symmetry.
  apply sendOne_resume_split.
Qed.

Lemma settle_all_results (a0 : APNS) (gateway : nat -> Exchange)
    (targets : list (string * Notification)) :
  forall (a a' : APNS) (ps : list Pending) (i : nat) (a2 : APNS),
    start_all a targets = (a', ps) ->
    snd (settle_all a2 ps i gateway)
    = map (fun q => captured (snd (_sendOne a0 (fst (snd q)) (snd (snd q))
                                     (gateway (fst q)))))
        (combine (seq i (length targets)) targets).
Proof.
  intros a a' ps i a2 Hstart. rewrite (settle_all_members a0).
  revert a a' ps i Hstart.
  induction targets as [|[device n] rest IH]; intros a a' ps i Hstart.
  - injection Hstart as <- <-. reflexivity.
  - cbn [start_all] in Hstart.
    pose proof (sendOne_start_path a device n) as Hpath.
    destruct (_sendOne_start a device n) as [a1 o].
    destruct (start_all a1 rest) as [a1' ps'] eqn:Hrest.
    injection Hstart as <- <-.
    cbn [length seq combine map fst snd
         pending_options pending_device pending_notification].
    rewrite (sendOne_outcome a0 a0 o device n (gateway i) Hpath).
    now rewrite (IH a1 a1' ps' (S i) Hrest).
Qed.

Lemma Promise_all_captured {A : Type} (f : A -> Completion Response)
    (l : list A) :
  Promise_all (map (fun q => captured (f q)) l)
  = Return (map (fun q => match f q with
                          | Return response => response
                          | Throw e => Failed e
                          end) l).
Proof.
  induction l as [|q l IH]; [reflexivity|].
  cbn [map]. unfold Promise_all in *. cbn [fold_right]. rewrite IH.
  destruct (f q); reflexivity.
Qed.

Lemma send_batch_results (a a0 : APNS)
    (targets : list (string * Notification)) (gateway : nat -> Exchange) :
  snd (send_batch a targets gateway)
  = Return (map (fun q => lone_result a0 (fst (snd q)) (snd (snd q))
                            (gateway (fst q)))
              (indexed targets)).
Proof.
  unfold send_batch.
  destruct (start_all a targets) as [a1 ps] eqn:Hstart.
  pose proof (settle_all_results a0 gateway targets a a1 ps 0%nat a1 Hstart)
    as Hrs.
  destruct (settle_all a1 ps 0 gateway) as [a2 rs]. cbn [snd] in *.
  rewrite Hrs.
  apply (Promise_all_captured
           (fun q => snd (_sendOne a0 (fst (snd q)) (snd (snd q))
                            (gateway (fst q))))).
Qed.

Lemma indexed_map {A B : Type} (f : A -> B) (l : list A) :
  indexed (map f l) = map (fun q => (fst q, f (snd q))) (indexed l).
Proof.
  unfold indexed. rewrite length_map. generalize 0%nat.
  induction l as [|x l IH]; intros i; [reflexivity|].
  cbn [length seq map combine fst snd]. now rewrite IH.
Qed.

Lemma indexed_length {A : Type} (l : list A) : length (indexed l) = length l.
Proof.
  unfold indexed. rewrite length_combine, length_seq. apply Nat.min_id.
Qed.

(** C3. [sendMany] and [sendToMany] always resolve.  The list they resolve
    with has one entry per member, in the order of the input: the success
    record of that member's send, or [{ error }] holding what that send
    threw.  The entry of a member is the one a send of that member alone
    would give against the same answers of the pool and the gateway,
    whatever state the client is in: the other members do not bear on it. *)
Theorem batch_sends_never_reject (a a0 : APNS) (notifications : list Notification)
    (deviceTokens : list string) (notification : Notification)
    (gateway : nat -> Exchange) :
  snd (sendMany a notifications gateway)
  = Return (map (fun q => lone_result a0 (deviceToken (snd q)) (snd q)
                            (gateway (fst q)))
              (indexed notifications))
  /\ snd (sendToMany a deviceTokens notification gateway)
     = Return (map (fun q => lone_result a0 (snd q) notification
                               (gateway (fst q)))
                 (indexed deviceTokens))
  /\ (exists rs, snd (sendMany a notifications gateway) = Return rs
                 /\ length rs = length notifications)
  /\ (exists rs, snd (sendToMany a deviceTokens notification gateway)
                 = Return rs
                 /\ length rs = length deviceTokens).
Proof.
  assert (Hmany : snd (sendMany a notifications gateway)
                  = Return (map (fun q => lone_result a0 (deviceToken (snd q))
                                            (snd q) (gateway (fst q)))
                              (indexed notifications))).
  { unfold sendMany. rewrite (send_batch_results a a0), indexed_map, map_map.
    reflexivity. }
  assert (Hto : snd (sendToMany a deviceTokens notification gateway)
                = Return (map (fun q => lone_result a0 (snd q) notification
                                          (gateway (fst q)))
                            (indexed deviceTokens))).
  { unfold sendToMany. rewrite (send_batch_results a a0), indexed_map, map_map.
    reflexivity. }
  split; [exact Hmany|]. split; [exact Hto|]. split.
  - eexists. split; [exact Hmany|]. now rewrite length_map, indexed_length.
  - eexists. split; [exact Hto|]. now rewrite length_map, indexed_length.
Qed.

End Batches.

Example sendMany_one_failure :
  snd (sendMany (RT := Sample.runtime) (Sample.client "key")
         [Sample.hello None; Sample.hello None; Sample.hello None]
         (fun i => if Nat.eqb i 1
                   then Sample.answer (VNum 410)
                          (Sample.reason_body "Unregistered")
                   else Sample.answer (VNum 200) ""))
  = Return [Sent (Sample.hello None) "abc123";
            Failed (Sample.failure "Unregistered" (VNum 410)
                      (Sample.hello None));
            Sent (Sample.hello None) "abc123"].
Proof. reflexivity. Qed.

Section SessionLifecycle.
Context {RT : Runtime}.

Lemma ready_has_live_session (c : HTTP2Client) (w : Sessions) :
  truthy (ready c w) = true ->
  _ready c = true
  /\ exists s, _session c = Some s /\ destroyed w s = false.
Proof.
  unfold ready. destruct (_ready c); [|discriminate].
  destruct (_session c) as [s|]; [|discriminate].
  simpl. intros H. split; [reflexivity|]. exists s.
  split; [reflexivity|]. now destruct (destroyed w s).
Qed.

Lemma destroy_clears (c : HTTP2Client) (w : Sessions) :
  _ready (fst (destroy c w)) = false
  /\ _session (fst (destroy c w)) = None
  /\ ready (fst (destroy c w)) (snd (destroy c w)) = VBool false.
Proof. repeat split. Qed.

Lemma destroy_idempotent (c : HTTP2Client) (w : Sessions) :
  destroy (fst (destroy c w)) (snd (destroy c w)) = destroy c w.
Proof. reflexivity. Qed.

Lemma destroy_marks_session (c : HTTP2Client) (w : Sessions) (s : SessionId) :
  _session c = Some s -> destroyed (snd (destroy c w)) s = true.
Proof.
  intros Hs. unfold destroy. rewrite Hs. cbn [snd].
  destruct (destroyed w s) eqn:E; cbn [negb]; cbv iota; [exact E|].
  cbn [destroyed]. unfold mark. now rewrite Nat.eqb_refl.
Qed.

Lemma run_op_not_ready (o : Op) (c : HTTP2Client) (w : Sessions) :
  truthy (ready c w) = false ->
  truthy (ready (fst (run_op o (c, w))) (snd (run_op o (c, w)))) = true ->
  exists session, o = OpConnected session.
Proof.
  intros Hbefore Hafter. destruct o as [session| |s e|s].
  - now exists session.
  - cbn [run_op] in Hafter.
    destruct (destroy_clears c w) as (_ & _ & Hr).
    rewrite Hr in Hafter. discriminate.
  - cbn [run_op] in Hafter. unfold session_event in Hafter.
    destruct (teardown w s).
    + destruct (destroy_clears c w) as (_ & _ & Hr).
      rewrite Hr in Hafter. discriminate.
    + cbn [fst snd] in Hafter. congruence.
  - cbn [run_op fst snd] in Hafter. exfalso.
    destruct (ready_has_live_session _ _ Hafter) as (Hr & s' & Hs' & Hd).
    unfold session_dies in Hd. cbn [destroyed] in Hd. unfold mark in Hd.
    destruct (Nat.eqb s' s); [discriminate|].
    unfold ready in Hbefore. rewrite Hr, Hs', Hd in Hbefore. discriminate.
Qed.

Lemma run_ops_flag_implies_handle (os : list Op) :
  forall (c : HTTP2Client) (w : Sessions),
    (_ready c = true -> _session c <> None) ->
    _ready (fst (run_ops os (c, w))) = true ->
    _session (fst (run_ops os (c, w))) <> None.
Proof.
  unfold run_ops.
  induction os as [|o os IH]; intros c w Hinv; [exact Hinv|].
  cbn [fold_left].
  destruct (run_op o (c, w)) as [c' w'] eqn:Hop.
  apply IH. destruct o as [session| |s e|s]; cbn [run_op] in Hop.
  - injection Hop as <- <-. discriminate.
  - injection Hop as <- <-. discriminate.
  - unfold session_event in Hop. destruct (teardown w s).
    + injection Hop as <- <-. discriminate.
    + injection Hop as <- <-. exact Hinv.
  - injection Hop as <- <-. exact Hinv.
Qed.

(** C9. The [ready] getter is truthy only when the client holds a session
    whose [destroyed] flag is off, whatever the state.  The constructor
    leaves [ready] false and no session; so does [destroy], which marks the
    session it held as destroyed and changes nothing when run again;
    [_connected] installs the session and raises the flag, so that [ready]
    is the negation of that session's [destroyed].  No operation other
    than [_connected] turns a client that is not ready into a ready one,
    and in every state reached from the constructor a raised flag comes
    with a session. *)
Theorem ready_only_with_live_session :
  (forall c w, truthy (ready c w) = true ->
     exists s, _session c = Some s /\ destroyed w s = false)
  /\ (forall host port timeout_opt c w,
        HTTP2Client_new host port timeout_opt = Return c ->
        ready c w = VBool false /\ _session c = None)
  /\ (forall c w,
        ready (fst (destroy c w)) (snd (destroy c w)) = VBool false
        /\ _ready (fst (destroy c w)) = false
        /\ _session (fst (destroy c w)) = None
        /\ (forall s, _session c = Some s ->
              destroyed (snd (destroy c w)) s = true)
        /\ destroy (fst (destroy c w)) (snd (destroy c w)) = destroy c w)
  /\ (forall c w session,
        _session (fst (_connected c w session)) = Some session
        /\ _ready (fst (_connected c w session)) = true
        /\ ready (fst (_connected c w session)) (snd (_connected c w session))
           = VBool (negb (destroyed w session)))
  /\ (forall o c w,
        truthy (ready c w) = false ->
        truthy (ready (fst (run_op o (c, w))) (snd (run_op o (c, w)))) = true ->
        exists session, o = OpConnected session)
  /\ (forall host port timeout_opt c w os,
        HTTP2Client_new host port timeout_opt = Return c ->
        _ready (fst (run_ops os (c, w))) = true ->
        _session (fst (run_ops os (c, w))) <> None).
Proof.
  split; [|split; [|split; [|split; [|split]]]].
  - intros c w H. now destruct (ready_has_live_session c w H).
  - intros host port timeout_opt c w. unfold HTTP2Client_new.
    destruct (host =? ""); [discriminate|].
    intros [= <-]. split; reflexivity.
  - intros c w. destruct (destroy_clears c w) as (Hr & Hs & Hg).
    repeat split; auto using destroy_marks_session.
  - intros c w session. repeat split.
  - intros o c w. apply run_op_not_ready.
  - intros host port timeout_opt c w os Hnew.
    apply run_ops_flag_implies_handle.
    revert Hnew. unfold HTTP2Client_new.
    destruct (host =? ""); [discriminate|].
    intros [= <-]. discriminate.
Qed.

End SessionLifecycle.

Lemma ready_only_with_live_session_witness :
  truthy (ready Sample.connected Sample.fresh_sessions) = true
  /\ exists s, _session Sample.connected = Some s
               /\ destroyed Sample.fresh_sessions s = false.
Proof.
  split; [reflexivity|].
  apply (proj1 (ready_only_with_live_session (RT := Sample.runtime))).
  reflexivity.
Defined.

(** * Further properties of lib/http2-client.ts *)

Section Requests.

Lemma request_issued (c : HTTP2Client) (o : HTTPClientOptions)
    (b : option string) (st : Stream) (r : StreamRequest) :
  In r (fst (request c o b st)) ->
  exists m s,
    method o = Some m /\ m <> "" /\ path o <> "" /\ _session c = Some s
    /\ r = {| on_session := s;
              sent_headers :=
                set_prop HTTP2_HEADER_PATH (VStr (path o))
                  (set_prop HTTP2_HEADER_METHOD (VStr m)
                     (match headers o with Some h => h | None => [] end));
              written := nonempty b |}.
Proof.
  unfold request. destruct (method o) as [m|]; [|intros []].
  destruct (m =? "") eqn:Hm; [intros []|].
  destruct (path o =? "") eqn:Hp; [intros []|].
  destruct (_session c) as [s|]; [|intros []].
  cbn [fst]. intros [<-|[]]. exists m, s.
  apply String.eqb_neq in Hm, Hp. repeat split; auto.
Qed.

Lemma request_without_session (c : HTTP2Client) (o : HTTPClientOptions)
    (b : option string) (st : Stream) :
  nonempty (method o) <> None -> path o <> "" -> _session c = None ->
  request c o b st
  = ([], Throw (VError "Must call connect() before making a request")).
Proof.
  unfold request, nonempty. intros Hm Hp Hs. apply String.eqb_neq in Hp.
  destruct (method o) as [m|]; [|congruence].
  destruct (m =? ""); [congruence|]. now rewrite Hp, Hs.
Qed.

Lemma request_with_session (c : HTTP2Client) (o : HTTPClientOptions)
    (b : option string) (st : Stream) (s : SessionId) :
  nonempty (method o) <> None -> path o <> "" -> _session c = Some s ->
  exists r, fst (request c o b st) = [r] /\ on_session r = s.
Proof.
  unfold request, nonempty. intros Hm Hp Hs. apply String.eqb_neq in Hp.
  destruct (method o) as [m|]; [|congruence].
  destruct (m =? ""); [congruence|]. rewrite Hp, Hs.
  eexists. split; reflexivity.
Qed.

(** What [post] sends, read off the request it issues. *)
Lemma post_issued (c : HTTP2Client) (o : HTTPClientOptions)
    (b : option string) (st : Stream) (r : StreamRequest) :
  In r (fst (post c o b st)) ->
  get_prop HTTP2_HEADER_METHOD (sent_headers r) = VStr "POST"
  /\ get_prop HTTP2_HEADER_PATH (sent_headers r) = VStr (path o)
  /\ (forall key, key <> HTTP2_HEADER_METHOD -> key <> HTTP2_HEADER_PATH ->
        get_prop key (sent_headers r)
        = get_prop key (match headers o with Some h => h | None => [] end))
  /\ written r = nonempty b
  /\ _session c = Some (on_session r).
Proof.
  intros Hin.
  destruct (request_issued _ _ _ _ _ Hin) as (m & s & Hm & _ & _ & Hs & ->).
  cbn [method path headers] in *. injection Hm as <-.
  cbn [sent_headers written on_session].
  split; [|split; [|split; [|split]]]; auto.
  - rewrite get_prop_set_prop_other by discriminate.
    apply get_prop_set_prop_same.
  - apply get_prop_set_prop_same.
  - intros key Hk1 Hk2. now rewrite !get_prop_set_prop_other.
Qed.

(** [request] checks the method, then the path, then the connection, and
    opens no stream on a call it refuses; a call it accepts opens exactly
    one stream, on the session the client holds. *)
Theorem request_checks_before_stream (c : HTTP2Client)
    (o : HTTPClientOptions) (b : option string) (st : Stream) :
  (nonempty (method o) = None ->
     request c o b st = ([], Throw (VError "method is required")))
  /\ (nonempty (method o) <> None -> path o = "" ->
        request c o b st = ([], Throw (VError "path is required")))
  /\ (nonempty (method o) <> None -> path o <> "" -> _session c = None ->
        request c o b st
        = ([], Throw (VError "Must call connect() before making a request")))
  /\ (forall s, nonempty (method o) <> None -> path o <> "" ->
        _session c = Some s ->
        exists r, fst (request c o b st) = [r] /\ on_session r = s).
Proof.
  unfold request, nonempty.
  destruct (method o) as [m|]; [destruct (m =? "")|];
    (split; [|split; [|split]]); try reflexivity; try congruence;
    try (intros; discriminate).
  - intros _ Hp. rewrite Hp. reflexivity.
  - intros _ Hp Hs. apply String.eqb_neq in Hp. now rewrite Hp, Hs.
  - intros s _ Hp Hs. apply String.eqb_neq in Hp. rewrite Hp, Hs.
    eexists. split; reflexivity.
Qed.

(** Each verb sends its own [:method] and the [:path] of the options,
    also when the caller's headers hold these two keys, and forwards
    every other header as given. *)
Theorem verbs_set_method_and_path (c : HTTP2Client) (o : HTTPClientOptions)
    (b : option string) (st : Stream) (r : StreamRequest) (verb : string) :
  (verb = "GET" /\ In r (fst (get c o st)))
  \/ (verb = "POST" /\ In r (fst (post c o b st)))
  \/ (verb = "PUT" /\ In r (fst (put c o b st)))
  \/ (verb = "DELETE" /\ In r (fst (delete c o st))) ->
  get_prop HTTP2_HEADER_METHOD (sent_headers r) = VStr verb
  /\ get_prop HTTP2_HEADER_PATH (sent_headers r) = VStr (path o)
  /\ forall key, key <> HTTP2_HEADER_METHOD -> key <> HTTP2_HEADER_PATH ->
       get_prop key (sent_headers r)
       = get_prop key (match headers o with Some h => h | None => [] end).
Proof.
  intros H.
  assert (exists b', In r (fst (request c {| method := Some verb;
                                             path := path o;
                                             headers := headers o |} b' st)))
    as [b' Hin].
  { destruct H as [[-> H]|[[-> H]|[[-> H]|[-> H]]]]; eexists; exact H. }
  destruct (request_issued _ _ _ _ _ Hin) as (m & s & Hm & _ & _ & _ & ->).
  cbn [method path headers] in *. injection Hm as <-. cbn [sent_headers].
  split; [|split].
  - rewrite get_prop_set_prop_other by discriminate.
    apply get_prop_set_prop_same.
  - apply get_prop_set_prop_same.
  - intros key Hk1 Hk2. now rewrite !get_prop_set_prop_other.
Qed.

(** [get] and [delete] write no body; [post] and [put] write the body
    they are given, unless it is [null] or the empty string. *)
Theorem verbs_write_body (c : HTTP2Client) (o : HTTPClientOptions)
    (b : option string) (st : Stream) (r : StreamRequest) :
  (In r (fst (get c o st)) -> written r = None)
  /\ (In r (fst (delete c o st)) -> written r = None)
  /\ (In r (fst (post c o b st)) -> written r = nonempty b)
  /\ (In r (fst (put c o b st)) -> written r = nonempty b).
Proof.
  repeat split; intros Hin;
    destruct (request_issued _ _ _ _ _ Hin) as (m & s & _ & _ & _ & _ & ->);
    reflexivity.
Qed.

(** A response [request] resolves with has a status code that is never
    [undefined] nor any other falsy value, unless the [:status] header is
    an array: it is that header, or the string ['400']. *)
Theorem request_status_defined (c : HTTP2Client) (o : HTTPClientOptions)
    (b : option string) (st : Stream) (res : ServerResponse) :
  snd (request c o b st) = Return res ->
  (forall items props,
     get_prop HTTP2_HEADER_STATUS (res_headers res) <> VArray items props) ->
  truthy (statusCode res) = true
  /\ (statusCode res = get_prop HTTP2_HEADER_STATUS (res_headers res)
      \/ statusCode res = VStr "400").
Proof.
  unfold request. destruct (method o) as [m|]; [|discriminate].
  destruct (m =? ""); [discriminate|].
  destruct (path o =? ""); [discriminate|].
  destruct (_session c) as [sid|]; [|discriminate].
  cbn [snd]. destruct st as [hs chunks| |]; try discriminate.
  intros [= <-]. cbn [res_headers statusCode]. unfold status_of.
  intros Harr.
  destruct (get_prop HTTP2_HEADER_STATUS hs) as [| |x|q|s| | | |] eqn:E;
    try (exfalso; eapply Harr; reflexivity);
    try (split; [reflexivity | auto]).
  - destruct (truthy (VBool x)) eqn:T; auto.
  - destruct (truthy (VNum q)) eqn:T; auto.
  - destruct (truthy (VStr s)) eqn:T; auto.
Qed.

End Requests.

Lemma request_checks_before_stream_witness :
  request Fixture.offline (Fixture.plain "" []) None StreamTimeout
  = ([], Throw (VError "method is required"))
  /\ request Fixture.offline
       {| method := Some "GET"; path := ""; headers := None |} None
       StreamTimeout
     = ([], Throw (VError "path is required"))
  /\ request Fixture.offline
       {| method := Some "GET"; path := "/"; headers := None |} None
       StreamTimeout
     = ([], Throw (VError "Must call connect() before making a request")).
Proof.
  split; [|split].
  - apply (proj1 (request_checks_before_stream Fixture.offline
                    (Fixture.plain "" []) None StreamTimeout)).
    reflexivity.
  - apply (proj1 (proj2 (request_checks_before_stream Fixture.offline
                           {| method := Some "GET"; path := "";
                              headers := None |} None StreamTimeout)));
      [discriminate | reflexivity].
  - apply (proj1 (proj2 (proj2 (request_checks_before_stream Fixture.offline
                                  {| method := Some "GET"; path := "/";
                                     headers := None |} None StreamTimeout))));
      [discriminate | discriminate | reflexivity].
Defined.

Lemma verbs_set_method_and_path_witness :
  get_prop HTTP2_HEADER_METHOD
    (sent_headers
       {| on_session := 7%nat;
          sent_headers := [(HTTP2_HEADER_METHOD, VStr "DELETE");
                           ("x-trace", VStr "1");
                           (HTTP2_HEADER_PATH, VStr "/devices")];
          written := None |})
  = VStr "DELETE".
Proof.
  refine (proj1 (verbs_set_method_and_path Sample.connected
                   (Fixture.plain "/devices"
                      [(HTTP2_HEADER_METHOD, VStr "PATCH");
                       ("x-trace", VStr "1")])
                   None StreamTimeout _ "DELETE" _)).
  right. right. right. split; [reflexivity|]. left. reflexivity.
Defined.

Lemma verbs_write_body_witness :
  written
    {| on_session := 7%nat;
       sent_headers := [(HTTP2_HEADER_METHOD, VStr "PUT");
                        (HTTP2_HEADER_PATH, VStr "/devices")];
       written := None |}
  = nonempty (Some "").
Proof.
  refine (proj2 (proj2 (proj2 (verbs_write_body Sample.connected
                                 (Fixture.plain "/devices" [])
                                 (Some "") StreamTimeout _))) _).
  left. reflexivity.
Defined.

Lemma request_status_defined_witness :
  truthy (statusCode {| statusCode := VStr "400";
                        res_headers := [(HTTP2_HEADER_STATUS, VNum 0)];
                        body := "" |}) = true.
Proof.
  refine (proj1 (request_status_defined Sample.connected
                   {| method := Some "GET"; path := "/"; headers := None |}
                   None (StreamEnd [(HTTP2_HEADER_STATUS, VNum 0)] [])
                   _ _ _)).
  - reflexivity.
  - intros items props. discriminate.
Defined.

Section Teardown.
Context {RT : Runtime}.

Lemma mark_same (s : SessionId) (f : SessionId -> bool) : mark s f s = true.
Proof. unfold mark. now rewrite Nat.eqb_refl. Qed.

Lemma mark_keeps (s x : SessionId) (f : SessionId -> bool) :
  f x = true -> mark s f x = true.
Proof. unfold mark. intros H. now destruct (Nat.eqb x s). Qed.

Lemma destroy_keeps_destroyed (c : HTTP2Client) (w : Sessions) (x : SessionId) :
  destroyed w x = true -> destroyed (snd (destroy c w)) x = true.
Proof.
  intros H. unfold destroy. cbn [snd].
  destruct (_session c) as [s|]; [|exact H].
  destruct (negb (destroyed w s)); [|exact H].
  cbn [destroyed]. now apply mark_keeps.
Qed.

Lemma destroy_keeps_teardown (c : HTTP2Client) (w : Sessions) :
  teardown (snd (destroy c w)) = teardown w.
Proof.
  unfold destroy. cbn [snd]. destruct (_session c) as [s|]; [|reflexivity].
  destruct (negb (destroyed w s)); reflexivity.
Qed.

(** Once [_connected] has installed a session, any of its five terminal
    events leaves the client without a session and not ready, and the
    session destroyed. *)
Theorem connected_session_event_destroys (c : HTTP2Client) (w : Sessions)
    (s : SessionId) (e : SessionEvent) :
  let connected := _connected c w s in
  let after := session_event (fst connected) (snd connected) s e in
  _session (fst after) = None
  /\ _ready (fst after) = false
  /\ ready (fst after) (snd after) = VBool false
  /\ destroyed (snd after) s = true.
Proof.
  intros connected after. unfold after, session_event, connected.
  cbn [_connected fst snd teardown]. rewrite mark_same.
  repeat split. apply destroy_marks_session. reflexivity.
Qed.

(** When the runtime destroys the session a client holds, [ready] is false
    at once, before any handler has run and while the client still holds
    the session. *)
Theorem ready_false_when_session_dies (c : HTTP2Client) (w : Sessions)
    (s : SessionId) :
  _session c = Some s ->
  truthy (ready c (session_dies w s)) = false
  /\ _session (fst (run_op (OpSessionDies s) (c, w))) = Some s.
Proof.
  intros Hs. split; [|exact Hs].
  unfold ready. rewrite Hs. destruct (_ready c); [|reflexivity].
  cbn [session_dies destroyed]. now rewrite mark_same.
Qed.

(** The handlers of [_connected] destroy whatever session the client holds
    when they run: after a second [_connected], a terminal event of the
    first session tears the second one down. *)
Theorem stale_session_event_destroys_current (c : HTTP2Client) (w : Sessions)
    (s1 s2 : SessionId) (e : SessionEvent) :
  let after :=
    run_ops [OpConnected s1; OpConnected s2; OpSessionEvent s1 e] (c, w) in
  _session (fst after) = None
  /\ _ready (fst after) = false
  /\ destroyed (snd after) s2 = true.
Proof.
  intros after. unfold after, run_ops. cbn [fold_left run_op _connected].
  unfold session_event. cbn [teardown].
  assert (Ht : mark s2 (mark s1 (teardown w)) s1 = true)
    by (apply mark_keeps, mark_same).
  rewrite Ht. repeat split. apply destroy_marks_session. reflexivity.
Qed.

Lemma run_op_keeps (o : Op) (c : HTTP2Client) (w : Sessions) :
  _url (fst (run_op o (c, w))) = _url c
  /\ _timeout (fst (run_op o (c, w))) = _timeout c
  /\ (forall x, destroyed w x = true ->
        destroyed (snd (run_op o (c, w))) x = true)
  /\ (forall x, teardown w x = true ->
        teardown (snd (run_op o (c, w))) x = true).
Proof.
  destruct o as [session| |s e|s]; cbn [run_op].
  - repeat split; auto. intros x Hx. cbn. now apply mark_keeps.
  - repeat split; auto using destroy_keeps_destroyed.
    intros x Hx. now rewrite destroy_keeps_teardown.
  - unfold session_event. destruct (teardown w s).
    + repeat split; auto using destroy_keeps_destroyed.
      intros x Hx. now rewrite destroy_keeps_teardown.
    + repeat split; auto.
  - repeat split; auto. intros x Hx. cbn. now apply mark_keeps.
Qed.

(** No sequence of operations brings a destroyed session back, removes the
    handlers from a session, or changes the URL and the timeout the client
    was built with. *)
Theorem run_ops_never_revives (os : list Op) (c : HTTP2Client) (w : Sessions) :
  _url (fst (run_ops os (c, w))) = _url c
  /\ _timeout (fst (run_ops os (c, w))) = _timeout c
  /\ (forall x, destroyed w x = true ->
        destroyed (snd (run_ops os (c, w))) x = true)
  /\ (forall x, teardown w x = true ->
        teardown (snd (run_ops os (c, w))) x = true).
Proof.
  unfold run_ops. revert c w.
  induction os as [|o os IH]; intros c w; [repeat split; auto|].
  cbn [fold_left].
  destruct (run_op_keeps o c w) as (Hu & Ht & Hd & Hh).
  destruct (run_op o (c, w)) as [c' w']. cbn [fst snd] in *.
  destruct (IH c' w') as (Hu' & Ht' & Hd' & Hh').
  rewrite Hu', Ht', Hu, Ht. repeat split; auto.
Qed.

(** A client that was destroyed refuses every request without opening a
    stream, and takes requests again on the session of the next
    [_connected]. *)
Theorem destroyed_client_refuses_requests (c : HTTP2Client) (w : Sessions)
    (o : HTTPClientOptions) (b : option string) (st : Stream)
    (s : SessionId) :
  nonempty (method o) <> None -> path o <> "" ->
  let gone := destroy c w in
  let back := _connected (fst gone) (snd gone) s in
  request (fst gone) o b st
  = ([], Throw (VError "Must call connect() before making a request"))
  /\ exists r, fst (request (fst back) o b st) = [r] /\ on_session r = s.
Proof.
  intros Hm Hp gone back. split.
  - now apply request_without_session.
  - now apply request_with_session.
Qed.

(** The client [pool_create] resolves with holds the session that
    connected, and [pool_validate] accepts it as long as that session is
    not destroyed.  A host that is empty, or a connection that fails,
    rejects the creation and leaves the sessions as they were. *)
Theorem pool_create_connects (h : string) (p n : Z) (w : Sessions)
    (outcome : Completion SessionId) :
  let pool := _createClientPool h p n in
  (h = "" -> pool_create pool w outcome = (w, Throw (VError "host is required")))
  /\ (forall e, h <> "" -> outcome = Throw e ->
        pool_create pool w outcome = (w, Throw e))
  /\ (forall s, h <> "" -> outcome = Return s ->
        exists c,
          snd (pool_create pool w outcome) = Return c
          /\ _session c = Some s
          /\ _url c = URL_href h p
          /\ pool_validate pool c (fst (pool_create pool w outcome))
             = VBool (negb (destroyed w s))).
Proof.
  intros pool. unfold pool, _createClientPool.
  cbn [pool_create pool_validate]. unfold HTTP2Client_new.
  split; [|split].
  - intros ->. reflexivity.
  - intros e Hh ->. apply String.eqb_neq in Hh. now rewrite Hh.
  - intros s Hh ->. apply String.eqb_neq in Hh. rewrite Hh.
    cbn [connect _connected fst snd]. eexists.
    split; [reflexivity|]. split; [reflexivity|]. split; [reflexivity|].
    unfold or_else, ready. cbn [_ready _session destroyed].
    now destruct (destroyed w s).
Qed.

(** [pool_validate] always answers with a boolean, never with the
    [undefined] the [ready] getter can give: [true] exactly for a client
    whose flag is raised and whose session is not destroyed, and [false]
    after [pool_destroy]. *)
Theorem pool_validate_boolean (h : string) (p n : Z) (c : HTTP2Client)
    (w : Sessions) :
  let pool := _createClientPool h p n in
  pool_validate pool c w = VBool (truthy (ready c w))
  /\ (pool_validate pool c w = VBool true <->
      _ready c = true
      /\ exists s, _session c = Some s /\ destroyed w s = false)
  /\ pool_validate pool (fst (pool_destroy pool c w))
       (snd (pool_destroy pool c w)) = VBool false.
Proof.
  intros pool. unfold pool, _createClientPool.
  cbn [pool_validate pool_destroy].
  assert (Hbool : or_else (ready c w) (VBool false)
                  = VBool (truthy (ready c w))).
  { unfold or_else, ready. destruct (_ready c); [|reflexivity].
    destruct (_session c) as [s|]; [|reflexivity].
    now destruct (destroyed w s). }
  split; [exact Hbool|]. split; [|reflexivity].
  rewrite Hbool. split.
  - intros [= Ht]. now apply ready_has_live_session.
  - intros (Hr & s & Hs & Hd). unfold ready. now rewrite Hr, Hs, Hd.
Qed.

End Teardown.

Lemma ready_false_when_session_dies_witness :
  truthy (ready Sample.connected Sample.fresh_sessions) = true
  /\ truthy (ready Sample.connected
               (session_dies Sample.fresh_sessions 7%nat)) = false.
Proof.
  split; [reflexivity|].
  refine (proj1 (ready_false_when_session_dies Sample.connected
                   Sample.fresh_sessions 7%nat _)).
  reflexivity.
Defined.

Lemma run_ops_never_revives_witness :
  destroyed
    (snd (run_ops [OpConnected 7%nat; OpDestroy; OpConnected 7%nat]
            (Fixture.offline, Sample.fresh_sessions))) 7%nat
  = true.
Proof.
  pose proof (run_ops_never_revives [OpConnected 7%nat]
                (fst (run_ops [OpConnected 7%nat; OpDestroy]
                        (Fixture.offline, Sample.fresh_sessions)))
                (snd (run_ops [OpConnected 7%nat; OpDestroy]
                        (Fixture.offline, Sample.fresh_sessions))))
    as (_ & _ & Hd & _).
  apply (Hd 7%nat). reflexivity.
Defined.

Lemma destroyed_client_refuses_requests_witness :
  request (fst (destroy Sample.connected Sample.fresh_sessions))
    {| method := Some "GET"; path := "/"; headers := None |} None
    StreamTimeout
  = ([], Throw (VError "Must call connect() before making a request")).
Proof.
  refine (proj1 (destroyed_client_refuses_requests
                   Sample.connected Sample.fresh_sessions
                   {| method := Some "GET"; path := "/"; headers := None |}
                   None StreamTimeout 8%nat _ _));
    discriminate.
Defined.

Lemma pool_create_connects_witness :
  exists c,
    snd (pool_create
           (_createClientPool (RT := Sample.runtime) HOST PORT MAX_CONNECTIONS)
           Sample.fresh_sessions (Return 7%nat)) = Return c
    /\ _session c = Some 7%nat
    /\ _url c = URL_href (Runtime := Sample.runtime) HOST PORT
    /\ pool_validate
         (_createClientPool (RT := Sample.runtime) HOST PORT MAX_CONNECTIONS)
         c
         (fst (pool_create
                 (_createClientPool (RT := Sample.runtime) HOST PORT
                    MAX_CONNECTIONS)
                 Sample.fresh_sessions (Return 7%nat)))
       = VBool (negb (destroyed Sample.fresh_sessions 7%nat)).
Proof.
  refine (proj2 (proj2 (pool_create_connects (RT := Sample.runtime) HOST PORT
                          MAX_CONNECTIONS Sample.fresh_sessions
                          (Return 7%nat))) 7%nat _ _);
    [discriminate | reflexivity].
Defined.

Lemma pool_validate_boolean_witness :
  pool_validate
    (_createClientPool (RT := Sample.runtime) HOST PORT MAX_CONNECTIONS)
    {| _url := "u"; _timeout := 5000; _ready := true; _session := None |}
    Sample.fresh_sessions
  = VBool false.
Proof.
  exact (proj1 (pool_validate_boolean (RT := Sample.runtime) HOST PORT
                  MAX_CONNECTIONS
                  {| _url := "u"; _timeout := 5000; _ready := true;
                     _session := None |} Sample.fresh_sessions)).
Defined.

(** * Further properties of lib/apns.ts *)

Section Construction.
Context {RT : Runtime}.

Lemma nonempty_inv (o : option string) (t : string) :
  nonempty o = Some t -> o = Some t /\ t <> "".
Proof.
  destruct o as [s|]; [|discriminate]. simpl.
  destruct (s =? "") eqn:E; [discriminate|].
  intros [= <-]. split; [reflexivity|]. now apply String.eqb_neq.
Qed.



End Construction.


Section SendOne.
Context {RT : Runtime}.

Lemma getSigningToken_same_config (a : APNS) :
  same_config (fst (_getSigningToken a)) a.
Proof.
  unfold _getSigningToken, same_config.
  destruct (nonempty (_token a)); [repeat split|].
  destruct (jwt_sign _ _ _); repeat split.
Qed.

Lemma same_config_trans (a b c : APNS) :
  same_config a b -> same_config b c -> same_config a c.
Proof. unfold same_config. intuition congruence. Qed.

Lemma same_config_record (a : APNS) (es : list Effect) :
  same_config (record a es) a.
Proof. repeat split. Qed.

Lemma emit_same_config (a : APNS) (name : value) (args : list value) :
  same_config (emit a name args) a.
Proof.
  unfold emit.
  assert (Hreset : forall b, same_config (fst (_resetSigningToken b)) b).
  { intros b. unfold _resetSigningToken.
    apply (same_config_trans _ (with_token b None));
      [apply getSigningToken_same_config | repeat split]. }
  destruct name; try apply same_config_record.
  destruct (s =? expiredProviderToken Errors);
    [|apply same_config_record].
  eapply same_config_trans; [apply Hreset | apply same_config_record].
Qed.

Lemma handleServerResponse_same_config (a : APNS) (res : ServerResponse)
    (device : string) (n : Notification) :
  same_config (fst (_handleServerResponse a res device n)) a.
Proof.
  assert (Hrefl : same_config a a) by repeat split.
  unfold _handleServerResponse.
  destruct (strict_equals_number _ _); [exact Hrefl|].
  destruct (assign_prop _ "statusCode" _) as [j1|]; [|exact Hrefl].
  destruct (assign_prop j1 "notification" _) as [j2|]; [|exact Hrefl].
  cbn [fst].
  eapply same_config_trans; apply emit_same_config.
Qed.

(** What a send adds to the log: the effects of [_getSigningToken], the
    acquisition, and, when a client is handed out, its release, the
    streams of the POST and the effects of the classification. *)
Lemma sendOne_log (a : APNS) (device : string) (n : Notification)
    (x : Exchange) :
  exists tail,
    quiet tail = true
    /\ log (fst (_sendOne a device n x))
       = log (fst (_getSigningToken a))
         ++ PoolAcquire
         :: match acquired x with
            | Throw _ => []
            | Return client =>
                PoolRelease client
                :: map SessionRequest
                     (fst (post client (snd (_sendOne_start a device n))
                             (Some (payloadJSON n)) (stream x)))
                ++ tail
            end.
Proof.
  unfold _sendOne, _sendOne_start.
  destruct (_getSigningToken a) as [a1 token]. cbn [fst snd].
  unfold _sendOne_resume.
  destruct (acquired x) as [client|e]; [|exists []; split; reflexivity].
  destruct (post client _ (Some (payloadJSON n)) (stream x))
    as [calls res] eqn:Hpost.
  cbn [fst].
  destruct res as [res|e].
  - match goal with
    | |- context [_handleServerResponse ?st res device n] =>
        destruct (handleServerResponse_quiet st res device n)
          as (tail & Htail & Hq)
    end.
    exists tail. split; [exact Hq|]. rewrite Htail. cbn [record log].
    rewrite <- !app_assoc. reflexivity.
  - exists []. split; [reflexivity|]. cbn [fst record log].
    rewrite app_nil_r, <- !app_assoc. reflexivity.
Qed.

Lemma quiet_no_request (es : list Effect) (r : StreamRequest) :
  quiet es = true -> ~ In (SessionRequest r) es.
Proof.
  unfold quiet. rewrite forallb_forall. intros H Hin.
  specialize (H _ Hin). discriminate.
Qed.

Lemma getSigningToken_adds (a : APNS) :
  exists es, log (fst (_getSigningToken a)) = log a ++ es /\ quiet es = true.
Proof. apply getSigningToken_quiet. Qed.

(** The requests a send adds to the log are the streams of its POST. *)
Lemma sendOne_added_request (a : APNS) (device : string) (n : Notification)
    (x : Exchange) (added : list Effect) (r : StreamRequest) :
  log (fst (_sendOne a device n x)) = log a ++ added ->
  In (SessionRequest r) added ->
  exists client,
    acquired x = Return client
    /\ In r (fst (post client (snd (_sendOne_start a device n))
                    (Some (payloadJSON n)) (stream x))).
Proof.
  intros Hlog Hin.
  destruct (sendOne_log a device n x) as (tail & Hq & Hshape).
  destruct (getSigningToken_adds a) as (pre & Hpre & Hqpre).
  rewrite Hpre, <- app_assoc in Hshape. rewrite Hshape in Hlog.
  apply app_inv_head in Hlog. subst added.
  apply in_app_or in Hin. destruct Hin as [Hin|Hin];
    [now apply quiet_no_request in Hin|].
  destruct Hin as [Hin|Hin]; [discriminate|].
  destruct (acquired x) as [client|e]; [|destruct Hin].
  destruct Hin as [Hin|Hin]; [discriminate|].
  apply in_app_or in Hin. destruct Hin as [Hin|Hin];
    [|now apply quiet_no_request in Hin].
  apply in_map_iff in Hin. destruct Hin as (r' & [= ->] & Hin).
  now exists client.
Qed.

Lemma sendOne_start_headers (a : APNS) (device : string) (n : Notification) :
  let base :=
    [("authorization", VStr (bearer (snd (_getSigningToken a))));
     ("apns-push-type", VStr (pushType n));
     ("apns-priority", VNum (inject_Z (priority n)));
     ("apns-topic",
      match nonempty (topic n), _defaultTopic a with
      | Some t, _ => VStr t
      | None, Some d => VStr d
      | None, None => VNull
      end)] in
  let with_expiration :=
    match expiration_header (expiration n) with
    | Some v => set_prop "apns-expiration" v base
    | None => base
    end in
  snd (_sendOne_start a device n)
  = {| method := None;
       path := "/" ++ API_VERSION ++ "/device/" ++ encodeURIComponent device;
       headers :=
         Some match nonempty (collapseId n) with
              | Some c => set_prop "apns-collapse-id" (VStr c) with_expiration
              | None => with_expiration
              end |}.
Proof.
  intros base with_expiration. unfold _sendOne_start.
  destruct (getSigningToken_same_config a) as (_ & _ & _ & Htopic & _).
  destruct (_getSigningToken a) as [a1 token]. cbn [fst snd] in *.
  unfold with_expiration, base, bearer. rewrite Htopic. reflexivity.
Qed.

(** Every request a send issues is a POST to [/3/device/<device>], the
    device identifier encoded, on the session of the client the pool
    handed out.  It carries the bearer token [_getSigningToken] returned
    ([bearer null] when signing failed), the push type and the priority
    of the notification, and the payload as its body. *)
Theorem sendOne_request_headers (a : APNS) (device : string)
    (n : Notification) (x : Exchange) (added : list Effect)
    (r : StreamRequest) :
  log (fst (_sendOne a device n x)) = log a ++ added ->
  In (SessionRequest r) added ->
  get_prop HTTP2_HEADER_METHOD (sent_headers r) = VStr "POST"
  /\ get_prop HTTP2_HEADER_PATH (sent_headers r)
     = VStr ("/3/device/" ++ encodeURIComponent device)
  /\ get_prop "authorization" (sent_headers r)
     = VStr ("bearer " ++ match snd (_getSigningToken a) with
                          | Some t => t
                          | None => "null"
                          end)
  /\ get_prop "apns-push-type" (sent_headers r) = VStr (pushType n)
  /\ get_prop "apns-priority" (sent_headers r)
     = VNum (inject_Z (priority n))
  /\ written r = nonempty (Some (payloadJSON n))
  /\ exists client,
       acquired x = Return client /\ _session client = Some (on_session r).
Proof.
  intros Hlog Hin.
  destruct (sendOne_added_request a device n x added r Hlog Hin)
    as (client & Hacq & Hpost).
  destruct (post_issued _ _ _ _ _ Hpost)
    as (Hmethod & Hpath & Hother & Hbody & Hs).
  rewrite sendOne_start_headers in Hpath, Hother. cbn [path headers] in *.
  split; [exact Hmethod|]. split; [exact Hpath|].
  assert (Hbase : forall key (hs : Props),
             key <> "apns-expiration" -> key <> "apns-collapse-id" ->
             get_prop key
               match nonempty (collapseId n) with
               | Some c =>
                   set_prop "apns-collapse-id" (VStr c)
                     match expiration_header (expiration n) with
                     | Some w => set_prop "apns-expiration" w hs
                     | None => hs
                     end
               | None =>
                   match expiration_header (expiration n) with
                   | Some w => set_prop "apns-expiration" w hs
                   | None => hs
                   end
               end
             = get_prop key hs).
  { intros key hs H1 H2.
    destruct (nonempty (collapseId n));
      [rewrite get_prop_set_prop_other by exact H2|];
      (destruct (expiration_header (expiration n));
       [now rewrite get_prop_set_prop_other | reflexivity]). }
  split; [|split; [|split; [|split]]].
  - rewrite Hother by discriminate.
    rewrite Hbase by discriminate. reflexivity.
  - rewrite Hother by discriminate.
    rewrite Hbase by discriminate. reflexivity.
  - rewrite Hother by discriminate.
    rewrite Hbase by discriminate. reflexivity.
  - exact Hbody.
  - exists client. split; [exact Hacq | exact Hs].
Qed.

(** The [apns-topic] of a request is the topic of the notification; when
    that is missing or empty it is the default topic of the client, and
    [null] when there is none.  The [apns-collapse-id] header is sent
    exactly when the notification has a collapse id that is not empty. *)
Theorem sendOne_topic_and_collapse_id (a : APNS) (device : string)
    (n : Notification) (x : Exchange) (added : list Effect)
    (r : StreamRequest) :
  log (fst (_sendOne a device n x)) = log a ++ added ->
  In (SessionRequest r) added ->
  get_prop "apns-topic" (sent_headers r)
  = match nonempty (topic n), _defaultTopic a with
    | Some t, _ => VStr t
    | None, Some d => VStr d
    | None, None => VNull
    end
  /\ get_prop "apns-collapse-id" (sent_headers r)
     = match nonempty (collapseId n) with
       | Some c => VStr c
       | None => VUndefined
       end.
Proof.
  intros Hlog Hin.
  destruct (sendOne_added_request a device n x added r Hlog Hin)
    as (client & Hacq & Hpost).
  destruct (post_issued _ _ _ _ _ Hpost) as (_ & _ & Hother & _).
  rewrite sendOne_start_headers in Hother. cbn [headers] in Hother.
  split; rewrite Hother by discriminate.
  - destruct (nonempty (collapseId n));
      [rewrite get_prop_set_prop_other by discriminate|];
      (destruct (expiration_header (expiration n));
       [rewrite get_prop_set_prop_other by discriminate|]; reflexivity).
  - destruct (nonempty (collapseId n));
      [apply get_prop_set_prop_same|].
    destruct (expiration_header (expiration n));
      [rewrite get_prop_set_prop_other by discriminate|]; reflexivity.
Qed.

End SendOne.

Lemma sendOne_request_headers_witness :
  get_prop "authorization"
    (sent_headers (Sample.posted "K1.T1.1700000000" []))
  = VStr "bearer K1.T1.1700000000"
  /\ get_prop HTTP2_HEADER_PATH
       (sent_headers (Sample.posted "K1.T1.1700000000" []))
     = VStr "/3/device/abc123".
Proof.
  destruct (sendOne_request_headers (RT := Sample.runtime)
              (Sample.client "key") "abc123" (Sample.hello None)
              (Sample.answer (VNum 200) "")
              (log (fst (_sendOne (RT := Sample.runtime)
                           (Sample.client "key") "abc123" (Sample.hello None)
                           (Sample.answer (VNum 200) ""))))
              (Sample.posted "K1.T1.1700000000" []))
    as (_ & Hpath & Hauth & _).
  - reflexivity.
  - right. right. right. left. reflexivity.
  - split; [exact Hauth | exact Hpath].
Defined.

Lemma sendOne_topic_and_collapse_id_witness :
  get_prop "apns-topic" (sent_headers (Sample.posted "K1.T1.1700000000" []))
  = VStr "com.example.app"
  /\ get_prop "apns-collapse-id"
       (sent_headers (Sample.posted "K1.T1.1700000000" []))
     = VUndefined.
Proof.
  apply (sendOne_topic_and_collapse_id (RT := Sample.runtime)
           (Sample.client "key") "abc123" (Sample.hello None)
           (Sample.answer (VNum 200) "")
           (log (fst (_sendOne (RT := Sample.runtime)
                        (Sample.client "key") "abc123" (Sample.hello None)
                        (Sample.answer (VNum 200) ""))))
           (Sample.posted "K1.T1.1700000000" [])).
  - reflexivity.
  - right. right. right. left. reflexivity.
Defined.

Section SendOutcomes.
Context {RT : Runtime}.

Lemma sendOne_unfold (a : APNS) (device : string) (n : Notification)
    (x : Exchange) :
  _sendOne a device n x
  = _sendOne_resume (record (fst (_getSigningToken a)) [PoolAcquire])
      (snd (_sendOne_start a device n)) device n x.
Proof.
  unfold _sendOne, _sendOne_start.
  destruct (_getSigningToken a) as [a1 token]. reflexivity.
Qed.

Lemma getSigningToken_cached (a : APNS) (t : string) :
  nonempty (_token a) = Some t -> _getSigningToken a = (a, Some t).
Proof. intros H. unfold _getSigningToken. now rewrite H. Qed.

Lemma signings_requests (calls : list StreamRequest) :
  signings (map SessionRequest calls) = [].
Proof. induction calls; auto. Qed.

Lemma emitted_requests (calls : list StreamRequest) :
  emitted (map SessionRequest calls) = [].
Proof. induction calls; auto. Qed.

Lemma post_accepted (client : HTTP2Client) (o : HTTPClientOptions)
    (b : option string) (st : Stream) (s : SessionId) :
  path o <> "" -> _session client = Some s ->
  exists r,
    post client o b st
    = ([r],
       match st with
       | StreamEnd hs chunks =>
           Return {| statusCode := status_of hs; res_headers := hs;
                     body := String.concat "" chunks |}
       | StreamError err => Throw err
       | StreamTimeout =>
           Throw (VError ("http2: timeout connecting to " ++ _url client))
       end).
Proof.
  intros Hp Hs. unfold post, request. cbn [method path headers].
  change ("POST" =? "") with false. cbv iota.
  apply String.eqb_neq in Hp. rewrite Hp, Hs. eexists. reflexivity.
Qed.

(** A send that returns has returned [{notification, deviceToken}], and
    then nothing was emitted but what [_getSigningToken] emitted at the
    start.  When the send started with a cached token, that token is still
    cached afterwards and nothing was signed or emitted at all. *)
Theorem sendOne_success_keeps_token (a : APNS) (device : string)
    (n : Notification) (x : Exchange) (response : Response) :
  snd (_sendOne a device n x) = Return response ->
  response = Sent n device
  /\ emitted (log (fst (_sendOne a device n x)))
     = emitted (log (fst (_getSigningToken a)))
  /\ forall t, nonempty (_token a) = Some t ->
       _token (fst (_sendOne a device n x)) = _token a
       /\ signings (log (fst (_sendOne a device n x))) = signings (log a)
       /\ emitted (log (fst (_sendOne a device n x))) = emitted (log a).
Proof.
  rewrite sendOne_unfold. unfold _sendOne_resume.
  destruct (acquired x) as [client|e]; [|discriminate].
  destruct (post client _ _ _) as [calls [res|e]]; [|discriminate].
  unfold _handleServerResponse.
  destruct (strict_equals_number (statusCode res) 200) eqn:Hs.
  - cbn [fst snd]. intros [= <-]. cbn [record log _token].
    split; [reflexivity|]. split.
    + rewrite !emitted_app, emitted_requests. cbn. now rewrite !app_nil_r.
    + intros t Ht. rewrite (getSigningToken_cached a t Ht). cbn [fst].
      rewrite !signings_app, !emitted_app, signings_requests,
        emitted_requests.
      cbn. rewrite !app_nil_r. auto.
  - destruct (assign_prop _ "statusCode" _) as [j1|]; [|discriminate].
    destruct (assign_prop j1 "notification" _); discriminate.
Qed.

(** A failure of the transport rejects the send with the error of the
    pool or of the stream, and no event is emitted for it: listeners of
    [Errors.error] only hear of answers of the gateway.  When the
    acquisition fails, nothing is released and no stream is opened. *)
Theorem sendOne_transport_failure (a : APNS) (device : string)
    (n : Notification) (x : Exchange) :
  (forall e, acquired x = Throw e ->
     snd (_sendOne a device n x) = Throw e
     /\ log (fst (_sendOne a device n x))
        = log (fst (_getSigningToken a)) ++ [PoolAcquire])
  /\ (forall client s err,
        acquired x = Return client -> _session client = Some s ->
        stream x = StreamError err ->
        snd (_sendOne a device n x) = Throw err
        /\ emitted (log (fst (_sendOne a device n x)))
           = emitted (log (fst (_getSigningToken a))))
  /\ (forall client s,
        acquired x = Return client -> _session client = Some s ->
        stream x = StreamTimeout ->
        snd (_sendOne a device n x)
        = Throw (VError ("http2: timeout connecting to " ++ _url client))
        /\ emitted (log (fst (_sendOne a device n x)))
           = emitted (log (fst (_getSigningToken a)))).
Proof.
  rewrite sendOne_unfold. unfold _sendOne_resume.
  pose proof (sendOne_start_path a device n) as Hpath.
  split; [|split].
  - intros e ->. split; reflexivity.
  - intros client s err -> Hs Hst.
    destruct (post_accepted client (snd (_sendOne_start a device n))
                (Some (payloadJSON n)) (stream x) s Hpath Hs) as [r ->].
    rewrite Hst. cbn [fst snd record log map].
    rewrite !emitted_app. cbn. rewrite !app_nil_r. auto.
  - intros client s -> Hs Hst.
    destruct (post_accepted client (snd (_sendOne_start a device n))
                (Some (payloadJSON n)) (stream x) s Hpath Hs) as [r ->].
    rewrite Hst. cbn [fst snd record log map].
    rewrite !emitted_app. cbn. rewrite !app_nil_r. auto.
Qed.

(** The client is released before it is used, so a client that has lost
    its session in the meantime fails the send with the error of
    [request], after the release and without any stream or event. *)
Theorem sendOne_client_without_session (a : APNS) (device : string)
    (n : Notification) (x : Exchange) (client : HTTP2Client) :
  acquired x = Return client ->
  _session client = None ->
  snd (_sendOne a device n x)
  = Throw (VError "Must call connect() before making a request")
  /\ log (fst (_sendOne a device n x))
     = log (fst (_getSigningToken a)) ++ [PoolAcquire; PoolRelease client].
Proof.
  intros Hacq Hs. rewrite sendOne_unfold. unfold _sendOne_resume.
  rewrite Hacq. unfold post, request. cbn [method path headers].
  change ("POST" =? "") with false. cbv iota.
  pose proof (sendOne_start_path a device n) as Hpath.
  apply String.eqb_neq in Hpath. rewrite Hpath, Hs.
  cbn [fst snd record log map]. rewrite app_nil_r, <- app_assoc.
  split; reflexivity.
Qed.

Lemma emit_token (a : APNS) (name : value) (args : list value) :
  _token (emit a name args)
  = match name with
    | VStr s =>
        if s =? expiredProviderToken Errors
        then jwt_sign (signing_claims (_team a) (now a)) (_signingKey a)
               (signing_options (_keyId a))
        else _token a
    | _ => _token a
    end.
Proof.
  unfold emit. destruct name; try reflexivity.
  destruct (s =? expiredProviderToken Errors); [|reflexivity].
  now destruct (resetSigningToken_result (record a [Emit (VStr s) args]))
    as (_ & Htok & _).
Qed.

(** A send that the gateway answers with the reason
    [Errors.expiredProviderToken] leaves the client with the token signed
    on receipt of that answer, whatever token the request was sent with;
    the send itself still fails. *)
Theorem sendOne_expired_token_resigns (a : APNS) (device : string)
    (n : Notification) (x : Exchange) (client : HTTP2Client) (s : SessionId)
    (hs : Props) (chunks : list string) (fields : Props) :
  acquired x = Return client -> _session client = Some s ->
  stream x = StreamEnd hs chunks ->
  strict_equals_number (status_of hs) 200 = false ->
  JSON_parse (String.concat "" chunks) = Some (VObject fields) ->
  get_prop "reason" fields = VStr (expiredProviderToken Errors) ->
  _token (fst (_sendOne a device n x))
  = jwt_sign {| iss := _team a; iat := inject_Z (now a) / 1000 |}
      (_signingKey a)
      {| algorithm := "ES256";
         header := {| alg := "ES256"; kid := _keyId a |} |}
  /\ exists json, snd (_sendOne a device n x) = Throw json
                  /\ read_prop json "reason"
                     = VStr (expiredProviderToken Errors).
Proof.
  intros Hacq Hs Hst Hstatus Hparse Hreason.
  rewrite sendOne_unfold. unfold _sendOne_resume. rewrite Hacq.
  destruct (post_accepted client (snd (_sendOne_start a device n))
              (Some (payloadJSON n)) (stream x) s
              (sendOne_start_path a device n) Hs) as [r ->].
  rewrite Hst. cbn [map].
  set (a3 := record (record (record (fst (_getSigningToken a)) [PoolAcquire])
                       [PoolRelease client]) [SessionRequest r]).
  assert (Hcfg : same_config a3 a).
  { unfold a3. eapply same_config_trans; [|apply getSigningToken_same_config].
    repeat split. }
  destruct Hcfg as (Hteam & Hkid & Hkey & _ & Hnow).
  unfold _handleServerResponse. cbn [statusCode body].
  rewrite Hstatus, Hparse, !assign_prop_object. cbn [fst snd].
  set (json := VObject (set_prop "notification" (VNotification n)
                          (set_prop "statusCode" (status_of hs) fields))).
  assert (Hr : read_prop json "reason" = VStr (expiredProviderToken Errors)).
  { unfold json. cbn [read_prop].
    rewrite !get_prop_set_prop_other by discriminate. exact Hreason. }
  split; [|exists json; split; [reflexivity | exact Hr]].
  rewrite Hr, emit_token.
  destruct (emit_same_config a3 (VStr (expiredProviderToken Errors)) [json])
    as (Hteam' & Hkid' & Hkey' & _ & Hnow').
  rewrite Hteam', Hkid', Hkey', Hnow', Hteam, Hkid, Hkey, Hnow.
  rewrite emit_token, String.eqb_refl, Hteam, Hkid, Hkey, Hnow.
  unfold signing_claims, signing_options, SIGNING_ALGORITHM.
  destruct (error Errors =? expiredProviderToken Errors); reflexivity.
Qed.

End SendOutcomes.

Lemma sendOne_success_keeps_token_witness :
  Sent (Sample.hello None) "abc123" = Sent (Sample.hello None) "abc123"
  /\ _token (fst (_sendOne (RT := Sample.runtime)
                    (with_token (Sample.client "key") (Some "cached"))
                    "abc123" (Sample.hello None)
                    (Sample.answer (VNum 200) "")))
     = Some "cached"
  /\ signings (log (fst (_sendOne (RT := Sample.runtime)
                           (with_token (Sample.client "key") (Some "cached"))
                           "abc123" (Sample.hello None)
                           (Sample.answer (VNum 200) ""))))
     = [].
Proof.
  destruct (sendOne_success_keeps_token (RT := Sample.runtime)
              (with_token (Sample.client "key") (Some "cached")) "abc123"
              (Sample.hello None) (Sample.answer (VNum 200) "")
              (Sent (Sample.hello None) "abc123"))
    as (Hsent & _ & Hcached); [reflexivity|].
  destruct (Hcached "cached") as (Htoken & Hsigned & _); [reflexivity|].
  split; [exact Hsent|]. split; [exact Htoken | exact Hsigned].
Defined.

Lemma sendOne_transport_failure_witness :
  snd (_sendOne (RT := Sample.runtime) (Sample.client "key") "abc123"
         (Sample.hello None) Fixture.refused)
  = Throw (VError "pool timeout")
  /\ snd (_sendOne (RT := Sample.runtime) (Sample.client "key") "abc123"
            (Sample.hello None) (Fixture.broken_stream (VError "reset")))
     = Throw (VError "reset").
Proof.
  destruct (sendOne_transport_failure (RT := Sample.runtime)
              (Sample.client "key") "abc123" (Sample.hello None)
              Fixture.refused) as (Hacquire & _ & _).
  destruct (sendOne_transport_failure (RT := Sample.runtime)
              (Sample.client "key") "abc123" (Sample.hello None)
              (Fixture.broken_stream (VError "reset")))
    as (_ & Hstream & _).
  split.
  - apply (Hacquire (VError "pool timeout")). reflexivity.
  - apply (Hstream Sample.connected 7%nat (VError "reset")); reflexivity.
Defined.

Lemma sendOne_client_without_session_witness :
  snd (_sendOne (RT := Sample.runtime) (Sample.client "key") "abc123"
         (Sample.hello None) Fixture.stale)
  = Throw (VError "Must call connect() before making a request").
Proof.
  refine (proj1 (sendOne_client_without_session (RT := Sample.runtime)
                   (Sample.client "key") "abc123" (Sample.hello None)
                   Fixture.stale Fixture.offline _ _));
    reflexivity.
Defined.

Lemma sendOne_expired_token_resigns_witness :
  _token (fst (_sendOne (RT := Sample.runtime)
                 (with_token (Sample.client "key") (Some "old")) "abc123"
                 (Sample.hello None)
                 (Sample.answer (VNum 403)
                    (Sample.reason_body "ExpiredProviderToken"))))
  = Some "K1.T1.1700000000".
Proof.
  refine (proj1 (sendOne_expired_token_resigns (RT := Sample.runtime)
                   (with_token (Sample.client "key") (Some "old")) "abc123"
                   (Sample.hello None)
                   (Sample.answer (VNum 403)
                      (Sample.reason_body "ExpiredProviderToken"))
                   Sample.connected 7%nat
                   [(HTTP2_HEADER_STATUS, VNum 403)]
                   [Sample.reason_body "ExpiredProviderToken"]
                   [("reason", VStr "ExpiredProviderToken")]
                   _ _ _ _ _ _));
    reflexivity.
Defined.

Section Failures.
Context {RT : Runtime}.



End Failures.


Section BatchEffects.
Context {RT : Runtime}.

Lemma getSigningToken_token (a : APNS) :
  _token (fst (_getSigningToken a))
  = match nonempty (_token a) with
    | Some _ => _token a
    | None => jwt_sign (signing_claims (_team a) (now a)) (_signingKey a)
                (signing_options (_keyId a))
    end
  /\ snd (_getSigningToken a)
     = match nonempty (_token a) with
       | Some t => Some t
       | None => jwt_sign (signing_claims (_team a) (now a)) (_signingKey a)
                   (signing_options (_keyId a))
       end.
Proof.
  unfold _getSigningToken. destruct (nonempty (_token a)); [auto|].
  destruct (jwt_sign _ _ _); auto.
Qed.

Lemma getSigningToken_result_ext (a b : APNS) :
  _token a = _token b -> same_config a b ->
  snd (_getSigningToken a) = snd (_getSigningToken b).
Proof.
  intros Ht (Hteam & Hkid & Hkey & _ & Hnow).
  rewrite (proj2 (getSigningToken_token a)), (proj2 (getSigningToken_token b)).
  now rewrite Ht, Hteam, Hkid, Hkey, Hnow.
Qed.

(** Asking again, with the clock where it was, gives the same token. *)
Lemma getSigningToken_stable (a : APNS) :
  snd (_getSigningToken (fst (_getSigningToken a)))
  = snd (_getSigningToken a).
Proof.
  destruct (getSigningToken_token a) as (Htok & Hres).
  destruct (getSigningToken_same_config a) as (Hteam & Hkid & Hkey & _ & Hnow).
  rewrite (proj2 (getSigningToken_token (fst (_getSigningToken a)))).
  rewrite Htok, Hres, Hteam, Hkid, Hkey, Hnow.
  destruct (nonempty (_token a)) as [t|] eqn:Hc; [now rewrite Hc|].
  destruct (nonempty (jwt_sign _ _ _)) as [t'|] eqn:Hn; [|reflexivity].
  now apply nonempty_inv in Hn.
Qed.

Lemma sendOne_start_state (a : APNS) (device : string) (n : Notification) :
  fst (_sendOne_start a device n)
  = record (fst (_getSigningToken a)) [PoolAcquire].
Proof.
  unfold _sendOne_start. now destruct (_getSigningToken a).
Qed.

Lemma sendOne_start_stable (a : APNS) (device : string) (n : Notification) :
  snd (_getSigningToken (fst (_sendOne_start a device n)))
  = snd (_getSigningToken a)
  /\ same_config (fst (_sendOne_start a device n)) a.
Proof.
  rewrite sendOne_start_state. split.
  - rewrite <- (getSigningToken_stable a).
    apply getSigningToken_result_ext; [reflexivity | repeat split].
  - eapply same_config_trans;
      [apply same_config_record | apply getSigningToken_same_config].
Qed.

Lemma sendOne_start_authorization (a : APNS) (device : string)
    (n : Notification) :
  get_prop "authorization"
    (match headers (snd (_sendOne_start a device n)) with
     | Some h => h
     | None => []
     end)
  = VStr (bearer (snd (_getSigningToken a))).
Proof.
  rewrite sendOne_start_headers. cbn [headers].
  destruct (nonempty (collapseId n));
    [rewrite get_prop_set_prop_other by discriminate|];
    (destruct (expiration_header (expiration n));
     [rewrite get_prop_set_prop_other by discriminate|]; reflexivity).
Qed.

(** What the synchronous start of a batch leaves behind. *)
Lemma start_all_effects (targets : list (string * Notification)) :
  forall a,
    exists es,
      log (fst (start_all a targets)) = log a ++ es
      /\ filter is_request es = []
      /\ length (filter is_acquire es) = length targets
      /\ same_config (fst (start_all a targets)) a
      /\ length (snd (start_all a targets)) = length targets
      /\ Forall (fun p =>
                   path (pending_options p) <> ""
                   /\ get_prop "authorization"
                        (match headers (pending_options p) with
                         | Some h => h
                         | None => []
                         end)
                      = VStr (bearer (snd (_getSigningToken a))))
           (snd (start_all a targets)).
Proof.
  induction targets as [|[device n] rest IH]; intros a.
  - exists []. cbn. rewrite app_nil_r. repeat split; auto.
  - cbn [start_all].
    pose proof (sendOne_start_path a device n) as Hpath.
    pose proof (sendOne_start_authorization a device n) as Hauth.
    destruct (sendOne_start_stable a device n) as (Hstable & Hcfg).
    pose proof (sendOne_start_state a device n) as Hstate.
    destruct (getSigningToken_quiet a) as (pre & Hpre & Hq).
    destruct (_sendOne_start a device n) as [a1 o]. cbn [fst snd] in *.
    destruct (IH a1) as (es & Hlog & Hreq & Hacq & Hcfg' & Hlen & Hall).
    destruct (start_all a1 rest) as [a2 ps]. cbn [fst snd] in *.
    exists (pre ++ PoolAcquire :: es).
    assert (Hpre_req : filter is_request pre = []
                       /\ filter is_acquire pre = []).
    { clear - Hq. induction pre as [|e pre IHp]; [auto|].
      cbn in Hq. apply andb_prop in Hq. destruct Hq as [He Hq].
      destruct (IHp Hq) as [H1 H2].
      destruct e; cbn in *; try discriminate; auto. }
    destruct Hpre_req as [Hpr Hpa].
    repeat split.
    + rewrite Hlog, Hstate. cbn [record log]. rewrite Hpre, <- !app_assoc.
      reflexivity.
    + rewrite filter_app, Hpr. cbn. exact Hreq.
    + rewrite filter_app, Hpa. cbn. now rewrite Hacq.
    + destruct Hcfg' as (? & ? & ? & ? & ?).
      destruct Hcfg as (? & ? & ? & ? & ?). congruence.
    + destruct Hcfg' as (? & ? & ? & ? & ?).
      destruct Hcfg as (? & ? & ? & ? & ?). congruence.
    + destruct Hcfg' as (? & ? & ? & ? & ?).
      destruct Hcfg as (? & ? & ? & ? & ?). congruence.
    + destruct Hcfg' as (? & ? & ? & ? & ?).
      destruct Hcfg as (? & ? & ? & ? & ?). congruence.
    + destruct Hcfg' as (? & ? & ? & ? & ?).
      destruct Hcfg as (? & ? & ? & ? & ?). congruence.
    + cbn. now rewrite Hlen.
    + constructor; [cbn [pending_options]; auto|].
      rewrite Hstable in Hall. exact Hall.
Qed.

Lemma sendOne_resume_effects (a : APNS) (o : HTTPClientOptions)
    (device : string) (n : Notification) (x : Exchange) :
  exists es,
    log (fst (_sendOne_resume a o device n x)) = log a ++ es
    /\ filter is_acquire es = []
    /\ (length (filter is_request es) <= 1)%nat
    /\ (forall r, In (SessionRequest r) es ->
          exists c b st, In r (fst (post c o b st)))
    /\ same_config (fst (_sendOne_resume a o device n x)) a.
Proof.
  assert (Hquiet : forall tail, quiet tail = true ->
             filter is_acquire tail = [] /\ filter is_request tail = []
             /\ forall r, ~ In (SessionRequest r) tail).
  { intros tail Hq. split; [|split].
    - induction tail as [|e tail IHt]; [auto|].
      cbn in Hq. apply andb_prop in Hq. destruct Hq as [He Hq].
      destruct e; cbn in *; try discriminate; auto.
    - induction tail as [|e tail IHt]; [auto|].
      cbn in Hq. apply andb_prop in Hq. destruct Hq as [He Hq].
      destruct e; cbn in *; try discriminate; auto.
    - intros r. now apply quiet_no_request. }
  unfold _sendOne_resume.
  destruct (acquired x) as [client|e].
  2:{ exists []. rewrite app_nil_r. repeat split; auto. intros r []. }
  destruct (post client o (Some (payloadJSON n)) (stream x))
    as [calls res] eqn:Hpost.
  assert (Hcalls : (length calls <= 1)%nat
                   /\ forall r, In r calls ->
                        In r (fst (post client o (Some (payloadJSON n))
                                     (stream x)))).
  { rewrite Hpost. cbn [fst]. split; [|auto].
    revert Hpost. unfold post, request. cbn [method path headers].
    destruct ("POST" =? ""); [intros [= <- _]; cbn; auto|].
    destruct (path o =? ""); [intros [= <- _]; cbn; auto|].
    destruct (_session client); intros [= <- _]; cbn; auto. }
  destruct Hcalls as [Hlen Hin].
  assert (Hfilter : filter is_acquire (map SessionRequest calls) = []
                    /\ filter is_request (map SessionRequest calls)
                       = map SessionRequest calls).
  { clear. induction calls as [|r calls IHc]; [auto|].
    destruct IHc as [H1 H2]. cbn. rewrite H2. auto. }
  destruct Hfilter as [Hfa Hfr].
  set (a3 := record (record a [PoolRelease client])
               (map SessionRequest calls)).
  assert (Hcfg3 : same_config a3 a) by repeat split.
  assert (Hshape : forall tail a4,
             quiet tail = true -> same_config a4 a ->
             log a4 = log a3 ++ tail ->
             exists es,
               log a4 = log a ++ es
               /\ filter is_acquire es = []
               /\ (length (filter is_request es) <= 1)%nat
               /\ (forall r, In (SessionRequest r) es ->
                     exists c b st, In r (fst (post c o b st)))
               /\ same_config a4 a).
  { intros tail a4 Hq Hcfg4 Hlog.
    destruct (Hquiet tail Hq) as (Hta & Htr & Hnone).
    exists (PoolRelease client :: map SessionRequest calls ++ tail).
    split; [|split; [|split; [|split]]].
    - rewrite Hlog. unfold a3. cbn [record log].
      rewrite <- !app_assoc. reflexivity.
    - cbn. rewrite filter_app, Hfa, Hta. reflexivity.
    - cbn. rewrite filter_app, Hfr, Htr, app_nil_r, length_map. exact Hlen.
    - intros r [Hr|Hr]; [discriminate|].
      apply in_app_or in Hr. destruct Hr as [Hr|Hr];
        [|now apply Hnone in Hr].
      apply in_map_iff in Hr. destruct Hr as (r' & [= ->] & Hr).
      eauto.
    - exact Hcfg4. }
  cbn [fst]. fold a3.
  destruct res as [res|e].
  - destruct (handleServerResponse_quiet a3 res device n)
      as (tail & Htail & Hq).
    apply (Hshape tail); auto.
    eapply same_config_trans;
      [apply handleServerResponse_same_config | exact Hcfg3].
  - cbn [fst]. apply (Hshape []); auto. now rewrite app_nil_r.
Qed.

Lemma quiet_filters (es : list Effect) :
  quiet es = true ->
  filter is_acquire es = [] /\ filter is_request es = [].
Proof.
  intros Hq. induction es as [|e es IH]; [auto|].
  cbn in Hq. apply andb_prop in Hq. destruct Hq as [He Hq].
  destruct (IH Hq) as [H1 H2].
  destruct e; cbn in *; try discriminate; auto.
Qed.

Lemma quiet_app (es1 es2 : list Effect) :
  quiet es1 = true -> quiet es2 = true -> quiet (es1 ++ es2) = true.
Proof.
  unfold quiet. intros H1 H2. now rewrite forallb_app, H1, H2.
Qed.

Lemma sendOne_issue_effects (a : APNS) (o : HTTPClientOptions)
    (n : Notification) (x : Exchange) :
  exists es,
    log (fst (_sendOne_issue a o n x)) = log a ++ es
    /\ filter is_acquire es = []
    /\ (length (filter is_request es) <= 1)%nat
    /\ (forall r, In (SessionRequest r) es ->
          exists c b st, In r (fst (post c o b st)))
    /\ same_config (fst (_sendOne_issue a o n x)) a.
Proof.
  unfold _sendOne_issue.
  destruct (acquired x) as [client|e].
  2:{ exists []. rewrite app_nil_r. repeat split; auto. intros r []. }
  destruct (post client o (Some (payloadJSON n)) (stream x))
    as [calls res] eqn:Hpost.
  assert (Hcalls : (length calls <= 1)%nat
                   /\ forall r, In r calls ->
                        In r (fst (post client o (Some (payloadJSON n))
                                     (stream x)))).
  { rewrite Hpost. cbn [fst]. split; [|auto].
    revert Hpost. unfold post, request. cbn [method path headers].
    destruct ("POST" =? ""); [intros [= <- _]; cbn; auto|].
    destruct (path o =? ""); [intros [= <- _]; cbn; auto|].
    destruct (_session client); intros [= <- _]; cbn; auto. }
  destruct Hcalls as [Hlen Hin].
  assert (Hfilter : filter is_acquire (map SessionRequest calls) = []
                    /\ filter is_request (map SessionRequest calls)
                       = map SessionRequest calls).
  { clear. induction calls as [|r calls IHc]; [auto|].
    destruct IHc as [H1 H2]. cbn. rewrite H2. auto. }
  destruct Hfilter as [Hfa Hfr].
  exists (PoolRelease client :: map SessionRequest calls).
  cbn [fst record log]. split; [|split; [|split; [|split]]].
  - rewrite <- app_assoc. reflexivity.
  - cbn. exact Hfa.
  - cbn. rewrite Hfr, length_map. exact Hlen.
  - intros r [Hr|Hr]; [discriminate|].
    apply in_map_iff in Hr. destruct Hr as (r' & [= ->] & Hr). eauto.
  - repeat split.
Qed.

Lemma sendOne_classify_effects (a : APNS) (r : Completion ServerResponse)
    (device : string) (n : Notification) :
  exists es,
    log (fst (_sendOne_classify a r device n)) = log a ++ es
    /\ quiet es = true
    /\ same_config (fst (_sendOne_classify a r device n)) a.
Proof.
  unfold _sendOne_classify. destruct r as [res|e].
  - destruct (handleServerResponse_quiet a res device n) as (es & Hes & Hq).
    exists es. repeat split; auto; apply handleServerResponse_same_config.
  - exists []. cbn. rewrite app_nil_r. repeat split.
Qed.

Lemma issue_all_effects (gateway : nat -> Exchange) (ps : list Pending) :
  forall a i,
    exists es,
      log (fst (issue_all a ps i gateway)) = log a ++ es
      /\ filter is_acquire es = []
      /\ (length (filter is_request es) <= length ps)%nat
      /\ (forall r, In (SessionRequest r) es ->
            exists p c b st,
              In p ps /\ In r (fst (post c (pending_options p) b st)))
      /\ same_config (fst (issue_all a ps i gateway)) a.
Proof.
  induction ps as [|p rest IH]; intros a i.
  - exists []. cbn. rewrite app_nil_r. repeat split; auto. intros r [].
  - cbn [issue_all].
    destruct (sendOne_issue_effects a (pending_options p)
                (pending_notification p) (gateway i))
      as (es1 & Hlog1 & Hacq1 & Hreq1 & Hin1 & Hcfg1).
    destruct (_sendOne_issue a (pending_options p) (pending_notification p)
                (gateway i)) as [a1 r1].
    cbn [fst] in *.
    destruct (IH a1 (S i)) as (es2 & Hlog2 & Hacq2 & Hreq2 & Hin2 & Hcfg2).
    destruct (issue_all a1 rest (S i) gateway) as [a2 rs]. cbn [fst] in *.
    exists (es1 ++ es2). split; [|split; [|split; [|split]]].
    + rewrite Hlog2, Hlog1, <- app_assoc. reflexivity.
    + rewrite filter_app, Hacq1, Hacq2. reflexivity.
    + rewrite filter_app, length_app. cbn [length]. lia.
    + intros r Hr. apply in_app_or in Hr. destruct Hr as [Hr|Hr].
      * destruct (Hin1 r Hr) as (c & b & st & H). exists p, c, b, st.
        split; [now left | exact H].
      * destruct (Hin2 r Hr) as (p' & c & b & st & Hp & H).
        exists p', c, b, st. split; [now right | exact H].
    + eapply same_config_trans; eauto.
Qed.

Lemma classify_all_effects (issued : list Issued) :
  forall a,
    exists es,
      log (fst (classify_all a issued)) = log a ++ es
      /\ quiet es = true
      /\ same_config (fst (classify_all a issued)) a.
Proof.
  induction issued as [|[p r] rest IH]; intros a.
  - exists []. cbn. rewrite app_nil_r. repeat split.
  - cbn [classify_all].
    destruct (sendOne_classify_effects a r (pending_device p)
                (pending_notification p)) as (es1 & Hlog1 & Hq1 & Hcfg1).
    destruct (_sendOne_classify a r (pending_device p)
                (pending_notification p)) as [a1 c].
    cbn [fst] in *.
    destruct (IH a1) as (es2 & Hlog2 & Hq2 & Hcfg2).
    destruct (classify_all a1 rest) as [a2 cs]. cbn [fst] in *.
    exists (es1 ++ es2). split; [|split].
    + rewrite Hlog2, Hlog1, <- app_assoc. reflexivity.
    + now apply quiet_app.
    + eapply same_config_trans; eauto.
Qed.

Lemma settle_all_effects (gateway : nat -> Exchange) (ps : list Pending) :
  forall a i,
    exists es,
      log (fst (settle_all a ps i gateway)) = log a ++ es
      /\ filter is_acquire es = []
      /\ (length (filter is_request es) <= length ps)%nat
      /\ (forall r, In (SessionRequest r) es ->
            exists p c b st,
              In p ps /\ In r (fst (post c (pending_options p) b st)))
      /\ same_config (fst (settle_all a ps i gateway)) a.
Proof.
  intros a i. unfold settle_all.
  destruct (issue_all_effects gateway ps a i)
    as (es1 & Hlog1 & Hacq1 & Hreq1 & Hin1 & Hcfg1).
  destruct (issue_all a ps i gateway) as [a1 issued]. cbn [fst] in *.
  destruct (classify_all_effects issued a1) as (es2 & Hlog2 & Hq2 & Hcfg2).
  destruct (quiet_filters es2 Hq2) as [Hacq2 Hreq2].
  exists (es1 ++ es2). split; [|split; [|split; [|split]]].
  - rewrite Hlog2, Hlog1, <- app_assoc. reflexivity.
  - rewrite filter_app, Hacq1, Hacq2. reflexivity.
  - rewrite filter_app, length_app, Hreq2. cbn [length]. lia.
  - intros r Hr. apply in_app_or in Hr. destruct Hr as [Hr|Hr].
    + now apply Hin1.
    + now apply quiet_no_request in Hr.
  - eapply same_config_trans; eauto.
Qed.

Lemma send_batch_effects (a : APNS) (targets : list (string * Notification))
    (gateway : nat -> Exchange) :
  exists added,
    log (fst (send_batch a targets gateway)) = log a ++ added
    /\ length (filter is_acquire added) = length targets
    /\ (length (filter is_request added) <= length targets)%nat
    /\ (forall r, In (SessionRequest r) added ->
          get_prop "authorization" (sent_headers r)
          = VStr (bearer (snd (_getSigningToken a))))
    /\ same_config (fst (send_batch a targets gateway)) a.
Proof.
  unfold send_batch.
  destruct (start_all_effects targets a)
    as (es1 & Hlog1 & Hreq1 & Hacq1 & Hcfg1 & Hlen1 & Hall).
  destruct (start_all a targets) as [a1 ps]. cbn [fst snd] in *.
  destruct (settle_all_effects gateway ps a1 0%nat)
    as (es2 & Hlog2 & Hacq2 & Hreq2 & Hin2 & Hcfg2).
  destruct (settle_all a1 ps 0 gateway) as [a2 rs]. cbn [fst] in *.
  exists (es1 ++ es2). split; [|split; [|split; [|split]]].
  - rewrite Hlog2, Hlog1, <- app_assoc. reflexivity.
  - rewrite filter_app, length_app, Hacq1, Hacq2. cbn. lia.
  - rewrite filter_app, length_app, Hreq1. cbn. lia.
  - intros r Hr. apply in_app_or in Hr. destruct Hr as [Hr|Hr].
    + exfalso. assert (Hf : In (SessionRequest r) (filter is_request es1))
        by (apply filter_In; auto).
      rewrite Hreq1 in Hf. exact Hf.
    + destruct (Hin2 r Hr) as (p & c & b & st & Hp & Hpost).
      rewrite Forall_forall in Hall. destruct (Hall p Hp) as [_ Hauth].
      destruct (post_issued _ _ _ _ _ Hpost) as (_ & _ & Hother & _).
      rewrite Hother by discriminate. exact Hauth.
  - eapply same_config_trans; eauto.
Qed.

(** When [_getSigningToken] has a token to give as a batch starts, all
    the requests of the batch carry that token: the options of every
    member are built before the first answer is handled, so a token that
    an answer makes the client sign again is not used within the batch. *)
Theorem batch_requests_share_token (a : APNS)
    (notifications : list Notification) (deviceTokens : list string)
    (notification : Notification) (gateway : nat -> Exchange)
    (added : list Effect) (r : StreamRequest) (t : string) :
  snd (_getSigningToken a) = Some t -> t <> "" ->
  (log (fst (sendMany a notifications gateway)) = log a ++ added
   \/ log (fst (sendToMany a deviceTokens notification gateway))
      = log a ++ added) ->
  In (SessionRequest r) added ->
  get_prop "authorization" (sent_headers r) = VStr ("bearer " ++ t).
Proof.
  intros Ht _ Hlog Hin. unfold sendMany, sendToMany in Hlog.
  destruct Hlog as [Hlog|Hlog];
    match type of Hlog with
    | log (fst (send_batch a ?targets gateway)) = _ =>
        destruct (send_batch_effects a targets gateway)
          as (added' & Hlog' & _ & _ & Hauth & _)
    end;
    rewrite Hlog' in Hlog; apply app_inv_head in Hlog; subst added';
    rewrite (Hauth r Hin), Ht; reflexivity.
Qed.

(** A batch calls [acquire] once per member and opens at most one stream
    per member. *)
Theorem batch_acquires_once_per_member (a : APNS)
    (notifications : list Notification) (deviceTokens : list string)
    (notification : Notification) (gateway : nat -> Exchange) :
  (exists added,
     log (fst (sendMany a notifications gateway)) = log a ++ added
     /\ length (filter is_acquire added) = length notifications
     /\ (length (filter is_request added) <= length notifications)%nat)
  /\ (exists added,
        log (fst (sendToMany a deviceTokens notification gateway))
        = log a ++ added
        /\ length (filter is_acquire added) = length deviceTokens
        /\ (length (filter is_request added) <= length deviceTokens)%nat).
Proof.
  unfold sendMany, sendToMany. split.
  - destruct (send_batch_effects a
                (map (fun n => (deviceToken n, n)) notifications) gateway)
      as (added & Hlog & Hacq & Hreq & _).
    rewrite length_map in Hacq, Hreq. eauto.
  - destruct (send_batch_effects a
                (map (fun d => (d, notification)) deviceTokens) gateway)
      as (added & Hlog & Hacq & Hreq & _).
    rewrite length_map in Hacq, Hreq. eauto.
Qed.

(** No send, alone or in a batch, changes the team, the key id, the
    signing key or the default topic of the client. *)
Theorem sends_keep_credentials (a : APNS) (device : string) (n : Notification)
    (x : Exchange) (notifications : list Notification)
    (deviceTokens : list string) (gateway : nat -> Exchange) (a' : APNS) :
  a' = fst (_sendOne a device n x)
  \/ a' = fst (sendMany a notifications gateway)
  \/ a' = fst (sendToMany a deviceTokens n gateway) ->
  _team a' = _team a /\ _keyId a' = _keyId a
  /\ _signingKey a' = _signingKey a /\ _defaultTopic a' = _defaultTopic a.
Proof.
  intros H.
  assert (Hcfg : same_config a' a).
  { destruct H as [ -> | [ -> | -> ] ].
    - rewrite sendOne_unfold.
      destruct (sendOne_resume_effects
                  (record (fst (_getSigningToken a)) [PoolAcquire])
                  (snd (_sendOne_start a device n)) device n x)
        as (_ & _ & _ & _ & _ & Hcfg).
      eapply same_config_trans; [exact Hcfg|].
      eapply same_config_trans;
        [apply same_config_record | apply getSigningToken_same_config].
    - unfold sendMany.
      now destruct (send_batch_effects a
                      (map (fun n => (deviceToken n, n)) notifications)
                      gateway)
        as (_ & _ & _ & _ & _ & Hcfg).
    - unfold sendToMany.
      now destruct (send_batch_effects a
                      (map (fun d => (d, n)) deviceTokens) gateway)
        as (_ & _ & _ & _ & _ & Hcfg). }
  destruct Hcfg as (H1 & H2 & H3 & H4 & _). auto.
Qed.

End BatchEffects.

Lemma batch_requests_share_token_witness :
  get_prop "authorization"
    (sent_headers (Sample.posted "K1.T1.1700000000" []))
  = VStr "bearer K1.T1.1700000000".
Proof.
  refine (batch_requests_share_token (RT := Sample.runtime)
            (Sample.client "key") [Sample.hello None; Sample.hello None] []
            (Sample.hello None)
            (fun i => if Nat.eqb i 0
                      then Sample.answer (VNum 403)
                             (Sample.reason_body "ExpiredProviderToken")
                      else Sample.answer (VNum 200) "")
            (log (fst (sendMany (RT := Sample.runtime) (Sample.client "key")
                         [Sample.hello None; Sample.hello None]
                         (fun i => if Nat.eqb i 0
                                   then Sample.answer (VNum 403)
                                          (Sample.reason_body
                                             "ExpiredProviderToken")
                                   else Sample.answer (VNum 200) ""))))
            (Sample.posted "K1.T1.1700000000" []) "K1.T1.1700000000"
            _ _ _ _).
  - reflexivity.
  - discriminate.
  - left. reflexivity.
  - vm_compute. repeat (first [left; reflexivity | right]).
Defined.

Lemma sends_keep_credentials_witness :
  _signingKey (fst (_sendOne (RT := Sample.runtime) (Sample.client "key")
                      "abc123" (Sample.hello None)
                      (Sample.answer (VNum 403)
                         (Sample.reason_body "ExpiredProviderToken"))))
  = "key".
Proof.
  refine (proj1 (proj2 (proj2 (sends_keep_credentials (RT := Sample.runtime)
                                 (Sample.client "key") "abc123"
                                 (Sample.hello None)
                                 (Sample.answer (VNum 403)
                                    (Sample.reason_body
                                       "ExpiredProviderToken"))
                                 [] [] (fun _ => Fixture.refused) _ _)))).
  left. reflexivity.
Defined.

(** * Properties of the notification constructors *)

Section NotificationOptions.
Context {K : NotificationConstants}.

Lemma set_prop_twice (key : string) (v w : value) (ps : Props) :
  set_prop key w (set_prop key v ps) = set_prop key w ps.
Proof.
  induction ps as [|[k u] rest IH]; cbn.
  - now rewrite String.eqb_refl.
  - destruct (k =? key) eqn:E; cbn; rewrite E; [reflexivity|].
    now rewrite IH.
Qed.

(** [BasicNotification] leaves a string alert alone and drops the message
    then.  Otherwise the alert handed on is an object whose [body] is the
    message and whose other keys are those of the alert given, if any.
    Every other field of the options passes unchanged, whatever the
    alert, and building twice with two messages gives what the second
    message alone gives. *)
Theorem BasicNotification_alert (message : string) (o : Options.t) :
  (forall text, Options.alert o = AlertText text ->
     BasicNotification_options message o = o)
  /\ ((forall text, Options.alert o <> AlertText text) ->
      exists fields,
        Options.alert (BasicNotification_options message o)
        = AlertFields fields
        /\ get_prop "body" fields = VStr message
        /\ forall key, key <> "body" ->
             get_prop key fields
             = get_prop key match Options.alert o with
                            | AlertFields given => given
                            | _ => []
                            end)
  /\ (forall earlier,
        BasicNotification_options message
          (BasicNotification_options earlier o)
        = BasicNotification_options message o)
  /\ Options.contentAvailable (BasicNotification_options message o)
     = Options.contentAvailable o
  /\ Options.pushType (BasicNotification_options message o)
     = Options.pushType o
  /\ Options.priority (BasicNotification_options message o)
     = Options.priority o
  /\ Options.badge (BasicNotification_options message o) = Options.badge o
  /\ Options.topic (BasicNotification_options message o) = Options.topic o
  /\ Options.expiration (BasicNotification_options message o)
     = Options.expiration o
  /\ Options.data (BasicNotification_options message o) = Options.data o
  /\ Options.other (BasicNotification_options message o) = Options.other o.
Proof.
  destruct o as [al f1 f2 f3 f4 f5 f6 f7 f8].
  unfold BasicNotification_options. cbn.
  split; [|split; [|split; [|repeat split]]].
  - intros text ->. reflexivity.
  - intros Hnot. destruct al as [|text|given].
    + exists [("body", VStr message)]. repeat split.
      intros key Hk.
      exact (get_prop_set_prop_other key "body" (VStr message) [] Hk).
    + now destruct (Hnot text).
    + exists (set_prop "body" (VStr message) given).
      split; [reflexivity|]. split; [apply get_prop_set_prop_same|].
      intros key Hk. now apply get_prop_set_prop_other.
  - intros earlier. destruct al as [|text|given]; cbn; try reflexivity.
    now rewrite set_prop_twice.
Qed.

Lemma or_else_twice (v d : value) : or_else (or_else v d) d = or_else v d.
Proof.
  unfold or_else. destruct (truthy v) eqn:E; [now rewrite E|].
  now destruct (truthy d).
Qed.

(** [SilentNotification] hands on a content-available notification
    without alert, whatever the options say, and none of the fields it
    does not name.  A push type or priority that is falsy, a priority of 0
    included, is replaced by the background type and the throttled
    priority, so that both are truthy whenever these two constants are.
    Building a silent notification from the options of one gives the same
    options. *)
Theorem SilentNotification_defaults (o : Options.t) :
  let silent := SilentNotification_options o in
  Options.contentAvailable silent = VBool true
  /\ Options.alert silent = NoAlert
  /\ Options.other silent = []
  /\ Options.pushType silent
     = (if truthy (Options.pushType o) then Options.pushType o
        else pushType_background)
  /\ Options.priority silent
     = (if truthy (Options.priority o) then Options.priority o
        else priority_throttled)
  /\ (truthy pushType_background = true ->
      truthy (Options.pushType silent) = true)
  /\ (truthy priority_throttled = true ->
      truthy (Options.priority silent) = true)
  /\ SilentNotification_options silent = silent.
Proof.
  intros silent. unfold silent, SilentNotification_options. cbn.
  repeat split.
  - intros Hd. unfold or_else.
    destruct (truthy (Options.pushType o)) eqn:E; auto.
  - intros Hd. unfold or_else.
    destruct (truthy (Options.priority o)) eqn:E; auto.
  - now rewrite !or_else_twice.
Qed.

End NotificationOptions.

Lemma BasicNotification_alert_witness :
  BasicNotification_options "Hello" (Fixture.bare (AlertText "Hi"))
  = Fixture.bare (AlertText "Hi")
  /\ (exists fields,
        Options.alert
          (BasicNotification_options "Hello"
             (Fixture.bare (AlertFields [("title", VStr "News");
                                         ("body", VStr "old")])))
        = AlertFields fields
        /\ get_prop "body" fields = VStr "Hello"
        /\ get_prop "title" fields = VStr "News")
  /\ Options.badge
       (BasicNotification_options "Hello"
          (Fixture.bare (AlertFields [("title", VStr "News");
                                      ("body", VStr "old")])))
     = VNum 3.
Proof.
  split; [|split].
  - apply (proj1 (BasicNotification_alert "Hello"
                    (Fixture.bare (AlertText "Hi"))) "Hi").
    reflexivity.
  - destruct (proj1 (proj2 (BasicNotification_alert "Hello"
                              (Fixture.bare
                                 (AlertFields [("title", VStr "News");
                                               ("body", VStr "old")])))))
      as (fields & Halert & Hbody & Hother).
    + intros text. discriminate.
    + exists fields. split; [exact Halert|]. split; [exact Hbody|].
      apply (Hother "title"). discriminate.
  - exact (proj1 (proj2 (proj2 (proj2 (proj2 (proj2 (proj2
             (BasicNotification_alert "Hello"
                (Fixture.bare (AlertFields [("title", VStr "News");
                                            ("body", VStr "old")])))))))))).
Defined.

Lemma SilentNotification_defaults_witness :
  truthy (Options.priority
            (SilentNotification_options (K := Fixture.constants)
               (Fixture.bare NoAlert))) = true.
Proof.
  refine (proj1 (proj2 (proj2 (proj2 (proj2 (proj2 (proj2
            (SilentNotification_defaults (K := Fixture.constants)
               (Fixture.bare NoAlert)))))))) _).
  reflexivity.
Defined.
